(** * Contract translator: refinement decision, compilation checker, launcher

    A shallow embedding of the decision function [should_refine]
    (core/agents.py), of [SolidityCompilationChecker]
    (core/solidity_compiler.py) and of the asset check of the demo
    launcher (launch_demo.py), with the properties their specification
    states about them.

    Python values are embedded as follows.
    - [str] is [string]; every character stands for one code point below
      256, and [str.lower] / [str.strip] are the Unicode operations
      restricted to that range.
    - [int] is [Z].
    - [Dict[str, Any]] is a [gmap string pyval].
    - A call that may raise returns a [result]; a call that also touches
      the host (file system, subprocesses) lives in the monad [M]. *)

From Stdlib Require Import ZArith String Ascii List Bool Lia.
From Stdlib Require Import DecimalString.
From stdpp Require Import gmap strings list fin_maps.

Open Scope Z_scope.

(** ** Python strings *)

Module PyStr.

Definition code (c : ascii) : N := N_of_ascii c.

(** Code points that [str.isspace] accepts, below 256. *)
Definition isspace (c : ascii) : bool :=
  let n := code c in
  ((9 <=? n) && (n <=? 13) || (28 <=? n) && (n <=? 32)
   || (n =? 133) || (n =? 160))%N.

(** [str.lower] on one code point: A-Z, and the Latin-1 capitals
    U+00C0..U+00DE except the multiplication sign U+00D7. *)
Definition lower_char (c : ascii) : ascii :=
  let n := code c in
  if ((65 <=? n) && (n <=? 90))%N then ascii_of_N (n + 32)
  else if ((192 <=? n) && (n <=? 222) && negb (n =? 215))%N
       then ascii_of_N (n + 32)
       else c.

(** [str.upper] on an ASCII letter (other code points are not needed). *)
Definition upper_ascii (c : ascii) : ascii :=
  let n := code c in
  if ((97 <=? n) && (n <=? 122))%N then ascii_of_N (n - 32) else c.

Fixpoint lower (s : string) : string :=
  match s with
  | EmptyString => EmptyString
  | String c s' => String (lower_char c) (lower s')
  end.

Fixpoint lstrip (s : string) : string :=
  match s with
  | EmptyString => EmptyString
  | String c s' => if isspace c then lstrip s' else s
  end.

Fixpoint rstrip (s : string) : string :=
  match s with
  | EmptyString => EmptyString
  | String c s' =>
      match rstrip s' with
      | EmptyString => if isspace c then EmptyString else String c EmptyString
      | r => String c r
      end
  end.

(** [s.strip()] *)
Definition strip (s : string) : string := rstrip (lstrip s).

(** [s.startswith(p)] *)
Fixpoint startswith (p s : string) : bool :=
  match p, s with
  | EmptyString, _ => true
  | String a p', String b s' => Ascii.eqb a b && startswith p' s'
  | String _ _, EmptyString => false
  end.

(** [sub in s] *)
Fixpoint contains (sub s : string) : bool :=
  startswith sub s ||
  match s with
  | EmptyString => false
  | String _ s' => contains sub s'
  end.

Definition nl : ascii := ascii_of_N 10.
Definition NL : string := String nl EmptyString.

(** [s.split(sep)] for a separator of one character. *)
Fixpoint split (sep : ascii) (s : string) : list string :=
  match s with
  | EmptyString => [EmptyString]
  | String c s' =>
      if Ascii.eqb c sep then EmptyString :: split sep s'
      else match split sep s' with
           | [] => [String c EmptyString]
           | l :: ls => String c l :: ls
           end
  end.

(** [sep.join(ls)] *)
Fixpoint join (sep : string) (ls : list string) : string :=
  match ls with
  | [] => EmptyString
  | [l] => l
  | l :: ls' => l +:+ sep +:+ join sep ls'
  end.

(** [x in xs] for a list of strings. *)
Definition in_list (x : string) (xs : list string) : bool :=
  existsb (String.eqb x) xs.

(** [s] spells [t] with some of its characters in upper case. *)
Inductive case_variant : string -> string -> Prop :=
| cv_nil : case_variant EmptyString EmptyString
| cv_keep c s t :
    case_variant s t -> case_variant (String c s) (String c t)
| cv_upper c s t :
    case_variant s t -> case_variant (String (upper_ascii c) s) (String c t).

(** The text [l] holds no line break. *)
Definition nl_free (l : string) : Prop :=
  ~ In nl (list_ascii_of_string l).

End PyStr.

(** ** Python values, exceptions and results *)

(** The values a report holds here: [None], [bool], [int], [str] and
    [list].  Other types ([float], [dict], ...) are not represented, so
    a statement over every [pyval] speaks of these five only. *)
#[warnings="-register-all"] Inductive pyval : Type :=
| PyNone
| PyBool (b : bool)
| PyInt (n : Z)
| PyStr (s : string)
| PyList (l : list pyval).

(** [bool(v)] *)
Definition truthy (v : pyval) : bool :=
  match v with
  | PyNone => false
  | PyBool b => b
  | PyInt n => negb (n =? 0)
  | PyStr s => negb (String.eqb s "")
  | PyList l => match l with [] => false | _ => true end
  end.

(** [type(v).__name__] *)
Definition type_name (v : pyval) : string :=
  match v with
  | PyNone => "NoneType"
  | PyBool _ => "bool"
  | PyInt _ => "int"
  | PyStr _ => "str"
  | PyList _ => "list"
  end.

Inductive exn_class : Type :=
| AttributeError
| TypeError
| IndexError
| FileNotFoundError
| FileExistsError
| TimeoutExpired
| OtherException.

(** An exception: its class and [str(e)].  Every class above is a
    subclass of [Exception]. *)
Record py_exn : Type := Exn { exn_cls : exn_class; exn_str : string }.

Inductive result (A : Type) : Type :=
| Ok (a : A)
| Raise (e : py_exn).
Arguments Ok {A} a.
Arguments Raise {A} e.

Definition rbind {A B} (r : result A) (k : A -> result B) : result B :=
  match r with
  | Ok a => k a
  | Raise e => Raise e
  end.

(** [d.get(key, default)] *)
Definition dict_get (d : gmap string pyval) (key : string) (default : pyval)
  : pyval :=
  match d !! key with
  | Some v => v
  | None => default
  end.

(** [v.lower()]: only [str] has the attribute. *)
Definition py_lower (v : pyval) : result string :=
  match v with
  | PyStr s => Ok (PyStr.lower s)
  | _ => Raise (Exn AttributeError
                  ("'" +:+ type_name v +:+ "' object has no attribute 'lower'"))
  end.

(** ** core/agents.py *)

Definition DEFAULT_MAX_REFINEMENT_ITERATIONS : Z := 2.

Definition should_refine (audit_report : gmap string pyval)
    (refinement_count max_iterations : Z) : result bool :=
  if refinement_count >=? max_iterations then Ok false
  else
    rbind (py_lower (dict_get audit_report "severity_level" (PyStr "unknown")))
      (fun severity =>
         let approved := dict_get audit_report "approved" (PyBool false) in
         if negb (truthy approved)
            && PyStr.in_list severity ["medium"; "high"; "critical"]
         then Ok true
         else Ok false).

(** The audit report of the data model: a severity among six levels and
    an approval flag, stored under the keys the auditor stage writes. *)
Inductive severity : Type :=
| SevNone | SevLow | SevMedium | SevHigh | SevCritical | SevUnknown.

Definition severity_name (s : severity) : string :=
  match s with
  | SevNone => "none"
  | SevLow => "low"
  | SevMedium => "medium"
  | SevHigh => "high"
  | SevCritical => "critical"
  | SevUnknown => "unknown"
  end.

Definition has_fields (report : gmap string pyval) (sev : severity)
    (approved : bool) : Prop :=
  report !! "severity_level" = Some (PyStr (severity_name sev)) /\
  report !! "approved" = Some (PyBool approved).

(** ** The host: file system and subprocesses *)

(** The part of the host state the code reads and writes. *)
Record world : Type := World {
  files : gmap string string;   (* regular files and their contents *)
  dirs : gset string            (* directories *)
}.

(** [subprocess.CompletedProcess] with captured text output. *)
Record completed_process : Type := CompletedProcess {
  returncode : Z;
  stdout : string;
  stderr : string
}.

(** Computations that read and change the host and may raise. *)
Definition M (A : Type) : Type := world -> result A * world.

Definition ret {A} (a : A) : M A := fun w => (Ok a, w).
Definition raise {A} (e : py_exn) : M A := fun w => (Raise e, w).
Definition bind {A B} (m : M A) (k : A -> M B) : M B :=
  fun w =>
    match m w with
    | (Ok a, w') => k a w'
    | (Raise e, w') => (Raise e, w')
    end.
Definition lift {A} (r : result A) : M A := fun w => (r, w).

Declare Scope py_scope.
Delimit Scope py_scope with py.
Notation "'let!' x ':=' m 'in' k" := (bind m (fun x => k))
  (at level 10, x name, m at level 100, k at level 200) : py_scope.
Open Scope py_scope.

(** [try: body except Exception as e: handler e] *)
Definition try_except {A} (body : M A) (handler : py_exn -> M A) : M A :=
  fun w =>
    match body w with
    | (Ok a, w') => (Ok a, w')
    | (Raise e, w') => handler e w'
    end.

(** [try: body finally: final] *)
Definition try_finally {A} (body : M A) (final : M unit) : M A :=
  fun w =>
    let (r, w') := body w in
    match final w' with
    | (Ok _, w'') => (r, w'')
    | (Raise e, w'') => (Raise e, w'')
    end.

#[global] Instance exn_class_eq_dec : EqDecision exn_class.
Proof. solve_decision. Defined.

(** [isinstance(e, classes)] *)
Definition exn_is (e : py_exn) (classes : list exn_class) : bool :=
  bool_decide (exn_cls e ∈ classes).

(** What the operating system decides: the outcome of running a command
    (with its timeout and [shell] flag) and the name [tempfile] picks. *)
Class Host : Type := {
  subprocess_run : list string -> Z -> bool -> M completed_process;
  mkstemp : string -> world -> string
}.

(** [Path(p).mkdir(exist_ok=True)]: fails when a regular file sits at
    [p].  Other refusals of the host (permissions, a missing parent)
    are not modelled. *)
Definition mkdir_exist_ok (p : string) : M unit :=
  fun w =>
    match files w !! p with
    | Some _ =>
        (Raise (Exn FileExistsError
                ("[Errno 17] File exists: '" +:+ p +:+ "'")), w)
    | None => (Ok tt, {| files := files w; dirs := {[ p ]} ∪ dirs w |})
    end.

(** [with tempfile.NamedTemporaryFile(mode='w', suffix=..., delete=False)
    as f: f.write(content); path = f.name].  Creating and writing the
    file succeed here; their failures (no space, text that cannot be
    encoded) are not modelled. *)
Definition named_temporary_file `{Host} (suffix content : string) : M string :=
  fun w =>
    let path := mkstemp suffix w in
    (Ok path, {| files := <[path := content]> (files w); dirs := dirs w |}).

(** [os.unlink(p)]: removes a regular file, and fails when there is
    none at [p]. *)
Definition os_unlink (p : string) : M unit :=
  fun w =>
    match files w !! p with
    | Some _ => (Ok tt, {| files := delete p (files w); dirs := dirs w |})
    | None =>
        (Raise (Exn FileNotFoundError
                  ("[Errno 2] No such file or directory: '" +:+ p +:+ "'")), w)
    end.

(** [cmd[0]] where [cmd] is a list or [None]. *)
Definition index0 (cmd : option (list string)) : result string :=
  match cmd with
  | None => Raise (Exn TypeError "'NoneType' object is not subscriptable")
  | Some [] => Raise (Exn IndexError "list index out of range")
  | Some (c :: _) => Ok c
  end.

(** [cmd + extra] where [cmd] is a list or [None]. *)
Definition list_add (cmd : option (list string)) (extra : list string)
  : result (list string) :=
  match cmd with
  | None =>
      Raise (Exn TypeError
               "unsupported operand type(s) for +: 'NoneType' and 'list'")
  | Some c => Ok (c ++ extra)
  end.

(** ** core/solidity_compiler.py *)

Record CompilationResult : Type := {
  compiles : option bool;
  error_message : option string;
  warnings : list string;
  compiler_version : option string
}.

Record SolidityCompilationChecker : Type := {
  compiler_cmd : option (list string);
  solc_available : bool
}.

Definition is_pragma_line (line : string) : bool :=
  PyStr.startswith "pragma solidity" (PyStr.strip line).

Definition _strip_version_pragma (solidity_code : string) : string :=
  let lines := PyStr.split PyStr.nl solidity_code in
  let filtered_lines :=
    fold_left
      (fun filtered_lines line =>
         if is_pragma_line line then filtered_lines
         else filtered_lines ++ [line])
      lines [] in
  PyStr.join PyStr.NL filtered_lines.

Section Checker.
Context `{Host}.

(** One [try] block of [_check_solc_available]: run the version command
    and tell whether it returned 0; a missing binary or a timeout
    counts as "not found", any other exception propagates. *)
Definition probe (cmd : list string) (shell : bool) : M bool :=
  try_except
    (let! result := subprocess_run cmd 5 shell in
     ret (returncode result =? 0))
    (fun e =>
       if exn_is e [FileNotFoundError; TimeoutExpired] then ret false
       else raise e).

Definition _check_solc_available : M (option (list string) * bool) :=
  let! found := probe ["solc"; "--version"] false in
  if found then ret (Some ["solc"], true)
  else
    let! found := probe ["npx"; "solcjs"; "--version"] true in
    if found then ret (Some ["npx"; "solcjs"], true)
    else ret (None, false).

Definition __init__ : M SolidityCompilationChecker :=
  let! r := _check_solc_available in
  ret {| compiler_cmd := fst r; solc_available := snd r |}.

(** The [for] loop that collects the warnings of a successful run. *)
Definition extract_warnings (stderr : string) : list string :=
  if PyStr.contains "Warning:" stderr then
    fold_left
      (fun warnings line =>
         if PyStr.contains "Warning:" line
         then warnings ++ [PyStr.strip line]
         else warnings)
      (PyStr.split PyStr.nl stderr) []
  else [].

(** The body of the [try] block. *)
Definition run_compiler (self : SolidityCompilationChecker)
    (output_dir tmp_path : string) : M CompilationResult :=
  let! cmd0 := lift (index0 (compiler_cmd self)) in
  let npx := String.eqb cmd0 "npx" in
  let! compile_cmd :=
    lift (if npx
          then list_add (compiler_cmd self)
                 ["--bin"; "--abi"; "--output-dir"; output_dir; tmp_path]
          else list_add (compiler_cmd self)
                 ["--bin"; "--abi"; "-o"; output_dir; tmp_path]) in
  let! version_cmd := lift (list_add (compiler_cmd self) ["--version"]) in
  let! result := subprocess_run compile_cmd 30 npx in
  let! version_result := subprocess_run version_cmd 5 npx in
  let compiler_version :=
    if returncode version_result =? 0
    then PyStr.strip (stdout version_result)
    else "unknown" in
  if returncode result =? 0 then
    ret {| compiles := Some true;
           error_message := None;
           warnings := extract_warnings (stderr result);
           compiler_version := Some compiler_version |}
  else
    ret {| compiles := Some false;
           error_message := Some (PyStr.strip (stderr result));
           warnings := [];
           compiler_version := Some compiler_version |}.

(** The two [except] clauses. *)
Definition on_exception (e : py_exn) : M CompilationResult :=
  if exn_is e [TimeoutExpired] then
    ret {| compiles := Some false;
           error_message := Some "Compilation timed out after 30 seconds";
           warnings := [];
           compiler_version := None |}
  else
    ret {| compiles := Some false;
           error_message :=
             Some ("Unexpected error during compilation: " +:+ exn_str e);
           warnings := [];
           compiler_version := None |}.

(** The [finally] clause: unlink the temporary file, swallowing any
    failure of the unlink itself. *)
Definition cleanup (tmp_path : string) : M unit :=
  try_except (os_unlink tmp_path) (fun _ => ret tt).

(** The [try] block with its [except] clauses. *)
Definition try_block (self : SolidityCompilationChecker)
    (output_dir tmp_path : string) : M CompilationResult :=
  try_except (run_compiler self output_dir tmp_path) on_exception.

(** The [try] / [except] / [finally] statement. *)
Definition compile_step (self : SolidityCompilationChecker)
    (output_dir tmp_path : string) : M CompilationResult :=
  try_finally (try_block self output_dir tmp_path) (cleanup tmp_path).

Definition unavailable_result : CompilationResult :=
  {| compiles := None;
     error_message :=
       Some "solc compiler not available. Install with: npm install -g solc";
     warnings := [];
     compiler_version := None |}.

Definition output_dir : string := "compilation_output".

Definition check_compilation (self : SolidityCompilationChecker)
    (solidity_code : string) : M CompilationResult :=
  if negb (solc_available self) then ret unavailable_result
  else
    let modified_code := _strip_version_pragma solidity_code in
    let! _ := mkdir_exist_ok output_dir in
    let! tmp_path := named_temporary_file ".sol" modified_code in
    compile_step self output_dir tmp_path.

Definition check_solidity_compiles (solidity_code : string)
  : M CompilationResult :=
  let! checker := __init__ in
  check_compilation checker solidity_code.

End Checker.

(** The temporary path [check_compilation] obtains and the host state in
    which it enters the [try] block, from the state [w] of the call. *)
Definition staged `{Host} (solidity_code : string) (w : world)
  : string * world :=
  let w1 := {| files := files w; dirs := {[ output_dir ]} ∪ dirs w |} in
  let tmp_path := mkstemp ".sol" w1 in
  (tmp_path,
   {| files := <[tmp_path := _strip_version_pragma solidity_code]> (files w1);
      dirs := dirs w1 |}).

(** The command line of the compilation, for a compiler command that
    starts with [c]. *)
Definition compile_command (c : string) (cs : list string)
    (tmp_path : string) : list string :=
  (c :: cs) ++
  (if String.eqb c "npx"
   then ["--bin"; "--abi"; "--output-dir"; output_dir; tmp_path]
   else ["--bin"; "--abi"; "-o"; output_dir; tmp_path]).

(** ** launch_demo.py: the check of the demo assets *)

(** [a / b] on paths; the workspace root is not the file-system root. *)
Definition path_div (a b : string) : string := a +:+ "/" +:+ b.

(** [Path(p).exists()] *)
Definition path_exists (w : world) (p : string) : bool :=
  bool_decide (is_Some (files w !! p)) || bool_decide (p ∈ dirs w).

(** The lines the check prints. *)
Inductive launcher_message : Type :=
| ErrorDemoNotFound (demo_file : string)
| WarningSamplerNotFound (sampler_file : string)
| DatasetBrowserNotAvailable
| DemoFilesFound.

(** How the check ends: [sys.exit(status)], or control reaches the next
    statement of the script (the start of the servers). *)
Inductive control : Type :=
| SysExit (status : Z)
| StartServers.

Definition asset_check (workspace_root : string) (w : world)
  : list launcher_message * control :=
  let contract_translator_dir :=
    path_div workspace_root "contract-translator" in
  let demo_file := path_div contract_translator_dir "demo.html" in
  let sampler_file := path_div contract_translator_dir "sampler.html" in
  if negb (path_exists w demo_file) then
    ([ErrorDemoNotFound demo_file], SysExit 1)
  else if negb (path_exists w sampler_file) then
    ([WarningSamplerNotFound sampler_file; DatasetBrowserNotAvailable],
     StartServers)
  else ([DemoFilesFound], StartServers).

(** ** The audit / refine loop of the orchestrator *)

(** Modelled from the spec: the refinement state the orchestrator owns
    for one translation request. *)
Record refinement_state : Type := {
  code : string;
  audit : gmap string pyval;
  iteration_count : Z
}.

(** Modelled from the spec: how a run of the loop ends (or that the fuel
    given to it did not suffice). *)
Inductive loop_outcome : Type :=
| Finalized (st : refinement_state)
| Aborted (e : py_exn)
| OutOfFuel.

Section Orchestrator.
(** The auditor and refiner stages are calls to a language model. *)
Variable auditor : string -> gmap string pyval.
Variable refiner : string -> gmap string pyval -> string.
Variable max_iterations : Z.

(** Modelled from the spec: the transitions [Audited -> Refining ->
    Audited] of the orchestrator (core/translator.py is not among the
    sources).  The transition is taken iff [should_refine] returns
    true; it invokes the refiner, increments the iteration count and
    audits the refined code again. *)
Definition refine_transition (st : refinement_state)
  : result (option refinement_state) :=
  rbind (should_refine (audit st) (iteration_count st) max_iterations)
    (fun go =>
       if go : bool then
         let code' := refiner (code st) (audit st) in
         Ok (Some {| code := code';
                     audit := auditor code';
                     iteration_count := iteration_count st + 1 |})
       else Ok None).

(** Modelled from the spec: the loop runs the transition until it is
    not taken; the last code and report are returned.  A stage
    exception aborts the request. *)
Fixpoint refinement_loop (fuel : nat) (st : refinement_state)
  : loop_outcome :=
  match fuel with
  | O => OutOfFuel
  | S fuel' =>
      match refine_transition st with
      | Raise e => Aborted e
      | Ok None => Finalized st
      | Ok (Some st') => refinement_loop fuel' st'
      end
  end.

(** Modelled from the spec: the state after the [Generated -> Audited]
    transition, with no refinement done yet. *)
Definition audited (generated_code : string) : refinement_state :=
  {| code := generated_code;
     audit := auditor generated_code;
     iteration_count := 0 |}.

(** One state follows another in a run of the loop. *)
Definition refines_to (st st' : refinement_state) : Prop :=
  refine_transition st = Ok (Some st').

End Orchestrator.

(** ** Text beyond U+00FF, [str()] and [repr()] *)

(** A [str] given by its code points, for the results that leave the
    range of [string]: upper-cased text and the symbols of the summary
    lines. *)
Module PyText.

Definition text : Type := list N.

Definition of_str (s : string) : text :=
  List.map N_of_ascii (list_ascii_of_string s).

(** [str.upper] on one code point below 256: a-z and the Latin-1 small
    letters move down by 32; the micro sign, the sharp s and the y with
    diaeresis leave the range. *)
Definition upper_char (c : ascii) : text :=
  let n := N_of_ascii c in
  if ((97 <=? n) && (n <=? 122))%N then [(n - 32)%N]
  else if (n =? 181)%N then [924%N]
  else if (n =? 223)%N then [83%N; 83%N]
  else if ((224 <=? n) && (n <=? 254) && negb (n =? 247))%N then [(n - 32)%N]
  else if (n =? 255)%N then [376%N]
  else [n].

(** [s.upper()] *)
Definition upper (s : string) : text :=
  flat_map upper_char (list_ascii_of_string s).

(** [a in t] for texts: [a] occurs in [t] as a block. *)
Definition occurs_in (a t : text) : Prop :=
  exists pre post, t = pre ++ a ++ post.

End PyText.

Module PyFmt.

Definition hex_digit (n : N) : ascii :=
  if (n <? 10)%N then ascii_of_N (48 + n) else ascii_of_N (87 + n).

(** The escape [\xhh] of a code point below 256. *)
Definition hex_escape (c : ascii) : string :=
  let n := N_of_ascii c in
  String (ascii_of_N 92)
    (String "x" (String (hex_digit (n / 16)) (String (hex_digit (n mod 16)) ""))).

(** [str.isprintable] on one code point below 256. *)
Definition isprintable (c : ascii) : bool :=
  let n := N_of_ascii c in
  ((32 <=? n) && (n <? 127) || (161 <=? n) && negb (n =? 173))%N.

Fixpoint has_char (c : ascii) (s : string) : bool :=
  match s with
  | EmptyString => false
  | String x s' => Ascii.eqb x c || has_char c s'
  end.

Definition squote : ascii := ascii_of_N 39.
Definition dquote : ascii := ascii_of_N 34.
Definition backslash : ascii := ascii_of_N 92.

(** One character inside [repr(s)], for the chosen quote. *)
Definition repr_char (quote c : ascii) : string :=
  let n := N_of_ascii c in
  if Ascii.eqb c quote || Ascii.eqb c backslash
  then String backslash (String c "")
  else if (n =? 9)%N then String backslash "t"
  else if (n =? 10)%N then String backslash "n"
  else if (n =? 13)%N then String backslash "r"
  else if isprintable c then String c ""
  else hex_escape c.

Fixpoint repr_body (quote : ascii) (s : string) : string :=
  match s with
  | EmptyString => EmptyString
  | String c s' => repr_char quote c +:+ repr_body quote s'
  end.

(** [repr(s)] of a [str]: single quotes, unless the text holds a single
    quote and no double quote. *)
Definition str_repr (s : string) : string :=
  let quote :=
    if has_char squote s && negb (has_char dquote s) then dquote else squote in
  String quote (repr_body quote s +:+ String quote "").

(** [str(n)] of an [int]. *)
Definition int_str (n : Z) : string := NilZero.string_of_int (Z.to_int n).

End PyFmt.

(** [repr(v)] *)
Fixpoint py_repr (v : pyval) : string :=
  match v with
  | PyNone => "None"
  | PyBool true => "True"
  | PyBool false => "False"
  | PyInt n => PyFmt.int_str n
  | PyStr s => PyFmt.str_repr s
  | PyList l => "[" +:+ PyStr.join ", " (List.map py_repr l) +:+ "]"
  end.

(** [str(v)], which is also what [f"{v}"] puts into a text. *)
Definition py_str (v : pyval) : string :=
  match v with
  | PyStr s => s
  | _ => py_repr v
  end.

(** The characters of a [str], each as a [str] of length one. *)
Fixpoint chars (s : string) : list pyval :=
  match s with
  | EmptyString => []
  | String c s' => PyStr (String c "") :: chars s'
  end.

(** The values [for x in v] runs through. *)
Definition py_iter (v : pyval) : result (list pyval) :=
  match v with
  | PyList l => Ok l
  | PyStr s => Ok (chars s)
  | _ => Raise (Exn TypeError
                  ("'" +:+ type_name v +:+ "' object is not iterable"))
  end.

(** [v.upper()]: only [str] has the attribute. *)
Definition py_upper (v : pyval) : result PyText.text :=
  match v with
  | PyStr s => Ok (PyText.upper s)
  | _ => Raise (Exn AttributeError
                  ("'" +:+ type_name v +:+ "' object has no attribute 'upper'"))
  end.

(** ** core/agents.py: the task of the refiner *)

(** The text of the task up to the contract code. *)
Definition task_head : string :=
  PyStr.join PyStr.NL
    ["Fix ALL security vulnerabilities in this Solidity smart contract.";
     "";
     "CURRENT CONTRACT CODE:";
     "```solidity";
     ""].

(** From the end of the contract code to the severity. *)
Definition task_findings : string :=
  PyStr.join PyStr.NL
    ["";
     "```";
     "";
     "SECURITY AUDIT FINDINGS (Severity: "].

(** From the severity to the list of issues. *)
Definition task_after_severity : string :=
  PyStr.join PyStr.NL
    ["):";
     ""].

(** From the list of issues to the list of recommendations. *)
Definition task_fixes : string :=
  PyStr.join PyStr.NL
    ["";
     "";
     "REQUIRED FIXES:";
     ""].

(** The requirements that close the task. *)
Definition task_requirements : string :=
  PyStr.join PyStr.NL
    ["";
     "";
     "CRITICAL REQUIREMENTS:";
     "1. Fix EVERY issue listed above - do not skip any vulnerability";
     "2. Follow the Checks-Effects-Interactions pattern for all external calls";
     "3. Add reentrancy guards (nonReentrant modifier) where needed";
     "4. Ensure ALL state changes happen BEFORE external calls";
     "5. Add proper access control (onlyOwner, role-based) on sensitive functions";
     "6. Validate ALL inputs with require() statements - no silent failures";
     "7. Check for zero addresses on address parameters";
     "8. Ensure arithmetic operations are safe (Solidity ^0.8.0 has built-in overflow protection)";
     "9. Preserve the original contract functionality while fixing security issues";
     "";
     "Return ONLY the complete, fixed Solidity code with ALL vulnerabilities addressed.";
     "Do not include explanations - just the corrected code."].

(** ["\n".join(f"  - {item}" for item in items) if items else fallback] *)
Definition bullet_lines (items : pyval) (fallback : string) : result string :=
  if truthy items then
    rbind (py_iter items)
      (fun l =>
         Ok (PyStr.join PyStr.NL
               (List.map (fun item => "  - " +:+ py_str item) l)))
  else Ok fallback.



Definition create_refinement_task_description (solidity_code : string)
    (audit_report : gmap string pyval) : result PyText.text :=
  let issues := dict_get audit_report "issues" (PyList []) in
  let recommendations := dict_get audit_report "recommendations" (PyList []) in
  let severity := dict_get audit_report "severity_level" (PyStr "unknown") in
  rbind (bullet_lines issues "  - No specific issues listed")
    (fun issues_text =>
  rbind (bullet_lines recommendations "  - No specific recommendations")
    (fun recommendations_text =>
  rbind (py_upper severity)
    (fun severity_upper =>
       Ok (PyText.of_str task_head
           ++ PyText.of_str solidity_code
           ++ PyText.of_str task_findings
           ++ severity_upper
           ++ PyText.of_str task_after_severity
           ++ PyText.of_str issues_text
           ++ PyText.of_str task_fixes
           ++ PyText.of_str recommendations_text
           ++ PyText.of_str task_requirements)))).

(** ** core/solidity_compiler.py: the summary line *)

(** The warning sign with its variation selector, and two blanks. *)
Definition summary_unavailable : PyText.text :=
  [9888%N; 65039%N]
  ++ PyText.of_str "  Compiler not available - cannot check compilation".

(** The check mark U+2705. *)
Definition summary_compiles : PyText.text :=
  [9989%N] ++ PyText.of_str " Compiles successfully".

(** The cross mark U+274C. *)
Definition summary_failed : PyText.text :=
  [10060%N] ++ PyText.of_str " Compilation failed: ".

(** [len(v)] of a [str] or [None]. *)
Definition len_opt (v : option string) : result nat :=
  match v with
  | Some s => Ok (String.length s)
  | None => Raise (Exn TypeError "object of type 'NoneType' has no len()")
  end.

(** [v[:n]] of a [str] or [None]. *)
Definition slice_to (n : nat) (v : option string) : result string :=
  match v with
  | Some s => Ok (String.substring 0 n s)
  | None => Raise (Exn TypeError "'NoneType' object is not subscriptable")
  end.

(** The part of [get_compilation_summary] after the check. *)
Definition summarize (res : CompilationResult) : result PyText.text :=
  match compiles res with
  | None => Ok summary_unavailable
  | Some true =>
      let warnings_text :=
        match warnings res with
        | [] => ""
        | _ :: _ =>
            " (" +:+ NilZero.string_of_uint
                       (Nat.to_uint (List.length (warnings res)))
            +:+ " warnings)"
        end in
      Ok (summary_compiles ++ PyText.of_str warnings_text)
  | Some false =>
      rbind (len_opt (error_message res))
        (fun n =>
           rbind (if (100 <? n)%nat
                  then rbind (slice_to 100 (error_message res))
                         (fun cut => Ok (cut +:+ "..."))
                  else match error_message res with
                       | Some msg => Ok msg
                       | None => Ok "None"
                       end)
             (fun error => Ok (summary_failed ++ PyText.of_str error)))
  end.

Definition get_compilation_summary `{Host} (self : SolidityCompilationChecker)
    (solidity_code : string) : M PyText.text :=
  let! res := check_compilation self solidity_code in
  lift (summarize res).

(** ** launch_demo.py: the check of the dependencies *)

(** What [__import__(name)] does. *)
Inductive import_outcome : Type :=
| Imported
| RaisesImportError
| RaisesOther (e : py_exn).

(** What the interpreter and the package installer decide: the outcome
    of importing a module, and the return code of
    [python -m pip install <name> -q]. *)
Class Installer : Type := {
  import_module : string -> import_outcome;
  pip_install : string -> Z
}.

(** Import name and package name, in the order of the dictionary. *)
Definition required_packages : list (string * string) :=
  [("flask", "flask");
   ("flask_cors", "flask-cors");
   ("fastmcp", "fastmcp");
   ("agentics", "agentics");
   ("PyPDF2", "PyPDF2");
   ("pydantic", "pydantic")].

(** The lines the loop prints. *)
Inductive dependency_message : Type :=
| PackageReady (pip_name : string)
| PackageInstalling (pip_name : string)
| PackageInstalled (pip_name : string).

(** An exception nobody catches: the script stops with a traceback. *)
Inductive uncaught : Type :=
| ImportRaised (import_name : string) (e : py_exn)
| CalledProcessError (pip_name : string) (returncode : Z).

(** The [for] loop over the packages: the lines printed, and the
    exception that ended it, if any. *)
Fixpoint check_dependencies `{Installer} (packages : list (string * string))
  : list dependency_message * option uncaught :=
  match packages with
  | [] => ([], None)
  | (import_name, pip_name) :: rest =>
      match import_module import_name with
      | Imported =>
          let (printed, stop) := check_dependencies rest in
          (PackageReady pip_name :: printed, stop)
      | RaisesImportError =>
          if pip_install pip_name =? 0 then
            let (printed, stop) := check_dependencies rest in
            (PackageInstalling pip_name :: PackageInstalled pip_name :: printed,
             stop)
          else
            ([PackageInstalling pip_name],
             Some (CalledProcessError pip_name (pip_install pip_name)))
      | RaisesOther e => ([], Some (ImportRaised import_name e))
      end
  end.

(** How the script is doing when it is about to start the servers. *)
Inductive startup : Type :=
| Traceback (u : uncaught)
| Checked (printed : list launcher_message) (next : control).

(** The script from the dependency loop to the asset check; the fixed
    headings printed in between are left out. *)
Definition launch_checks `{Installer} (workspace_root : string) (w : world)
  : list dependency_message * startup :=
  match check_dependencies required_packages with
  | (printed, Some u) => (printed, Traceback u)
  | (printed, None) =>
      (printed,
       Checked (fst (asset_check workspace_root w))
               (snd (asset_check workspace_root w)))
  end.

(** ** Concrete hosts and inputs *)

Module Sample.

Definition tmp_sol : string := "/tmp/tmpk3v9x2.sol".

Definition is_version_cmd (cmd : list string) : bool :=
  match last cmd with
  | Some a => String.eqb a "--version"
  | None => false
  end.

(** A host with a native [solc]: the version command prints a banner,
    and a compilation ends as [outcome] says after writing one
    artifact into the output directory. *)
Definition solc_host (outcome : result completed_process) : Host :=
  {| subprocess_run cmd timeout shell w :=
       if is_version_cmd cmd then
         (Ok (CompletedProcess 0 "solc, the solidity compiler 0.8.20 " ""), w)
       else
         (outcome,
          {| files := <["compilation_output/Escrow.bin" := "6080"]> (files w);
             dirs := dirs w |});
     mkstemp suffix w := tmp_sol |}.

(** A host on which no command can be started. *)
Definition bare_host : Host :=
  {| subprocess_run cmd timeout shell w :=
       (Raise (Exn FileNotFoundError
                 "[Errno 2] No such file or directory"), w);
     mkstemp suffix w := tmp_sol |}.

Definition native : SolidityCompilationChecker :=
  {| compiler_cmd := Some ["solc"]; solc_available := true |}.

Definition absent : SolidityCompilationChecker :=
  {| compiler_cmd := None; solc_available := false |}.

Definition empty_world : world := {| files := ∅; dirs := ∅ |}.

Definition source : string :=
  "pragma solidity ^0.8.0;" +:+ PyStr.NL +:+ "contract Escrow {}".

Definition failed_run : completed_process :=
  CompletedProcess 1 ""
    ("Warning: unused variable" +:+ PyStr.NL +:+ "Error: expected ';'").

Definition warned_run : completed_process :=
  CompletedProcess 0 ""
    ("  Warning: unused variable " +:+ PyStr.NL +:+ "1 | uint x;").

Definition timeout : py_exn :=
  Exn TimeoutExpired "Command '['solc']' timed out after 30 seconds".

Definition report (severity_level : string) (approved : bool)
  : gmap string pyval :=
  <["severity_level" := PyStr severity_level]>
    (<["approved" := PyBool approved]> ∅).

Definition site : world :=
  {| files := {[ "/srv/app/contract-translator/demo.html" := "<html>" ]};
     dirs := {[ "/srv/app"; "/srv/app/contract-translator" ]} |}.

End Sample.

(** Further hosts and inputs. *)
Module Case.

Definition findings : gmap string pyval :=
  <["issues" := PyList [PyStr "reentrancy in withdraw";
                        PyStr "missing access control"]]>
    (<["recommendations" := PyList [PyStr "add a reentrancy guard"]]>
       (Sample.report "High" false)).

Definition unlisted : gmap string pyval :=
  <["issues" := PyNone]> (Sample.report "critical" false).

(** A host with [npx solcjs] and no native [solc]. *)
Definition npx_host : Host :=
  {| subprocess_run cmd timeout shell w :=
       match cmd with
       | "npx" :: _ => (Ok (CompletedProcess 0 "0.8.20+commit.a1b79de6" ""), w)
       | _ => (Raise (Exn FileNotFoundError
                        "[Errno 2] No such file or directory: 'solc'"), w)
       end;
     mkstemp suffix w := Sample.tmp_sol |}.

(** A host that refuses to start any program. *)
Definition denied_host : Host :=
  {| subprocess_run cmd timeout shell w :=
       (Raise (Exn OtherException "[Errno 13] Permission denied: 'solc'"), w);
     mkstemp suffix w := Sample.tmp_sol |}.

(** A regular file sits where the output directory should be. *)
Definition blocked_world : world :=
  {| files := {[ "compilation_output" := "notes" ]}; dirs := ∅ |}.

(** A failed run with 120 characters of error output. *)
Definition verbose_run : completed_process :=
  CompletedProcess 1 ""
    ("Error: " +:+ "0123456789012345678901234567890123456789"
     +:+ "0123456789012345678901234567890123456789"
     +:+ "012345678901234567890123456789012").

(** A host whose compiler succeeds with a warning and whose version
    query then times out. *)
Definition version_timeout_host : Host :=
  {| subprocess_run cmd timeout shell w :=
       if Sample.is_version_cmd cmd then
         (Raise (Exn TimeoutExpired
                   "Command '['solc', '--version']' timed out after 5 seconds"),
          w)
       else (Ok Sample.warned_run, w);
     mkstemp suffix w := Sample.tmp_sol |}.

Definition all_installed : Installer :=
  {| import_module name := Imported; pip_install name := 0 |}.

(** [flask_cors] is missing and cannot be installed. *)
Definition offline : Installer :=
  {| import_module name :=
       if String.eqb name "flask_cors" then RaisesImportError else Imported;
     pip_install name := 1 |}.

End Case.

(** * Properties *)

(** Membership of a constructor in a list of constructors. *)
Ltac sev_in :=
  repeat first [apply list_elem_of_here | apply list_elem_of_further].
Ltac sev_out H :=
  exfalso;
  repeat (apply elem_of_cons in H as [H|H]; [discriminate H|]);
  apply elem_of_nil in H; exact H.

(** ** Strings *)

Lemma lower_char_upper_ascii c :
  PyStr.lower_char (PyStr.upper_ascii c) = PyStr.lower_char c.
Proof. destruct c as [[] [] [] [] [] [] [] []]; reflexivity. Qed.

Lemma lower_char_idemp c :
  PyStr.lower_char (PyStr.lower_char c) = PyStr.lower_char c.
Proof. destruct c as [[] [] [] [] [] [] [] []]; reflexivity. Qed.

Lemma lower_idemp s : PyStr.lower (PyStr.lower s) = PyStr.lower s.
Proof.
  induction s as [|c s IH]; simpl; [reflexivity|].
  now rewrite lower_char_idemp, IH.
Qed.

Lemma case_variant_lower s t :
  PyStr.case_variant s t -> PyStr.lower s = PyStr.lower t.
Proof.
  induction 1 as [|c s t _ IH|c s t _ IH]; simpl.
  - reflexivity.
  - now rewrite IH.
  - now rewrite lower_char_upper_ascii, IH.
Qed.

(** ** The refinement decision *)


Lemma should_refine_below report count max :
  count < max ->
  should_refine report count max =
  rbind (py_lower (dict_get report "severity_level" (PyStr "unknown")))
    (fun severity =>
       Ok (negb (truthy (dict_get report "approved" (PyBool false)))
           && PyStr.in_list severity ["medium"; "high"; "critical"])).
Proof.
  intros Hlt. unfold should_refine.
  destruct (count >=? max) eqn:E; [lia|].
  destruct (py_lower _); simpl; [|reflexivity].
  now destruct (_ && _).
Qed.

Lemma should_refine_str report count max s :
  count < max ->
  report !! "severity_level" = Some (PyStr s) ->
  should_refine report count max =
  Ok (negb (truthy (dict_get report "approved" (PyBool false)))
      && PyStr.in_list (PyStr.lower s) ["medium"; "high"; "critical"]).
Proof.
  intros Hlt Hs. rewrite should_refine_below by assumption.
  unfold dict_get at 1. now rewrite Hs.
Qed.

Lemma should_refine_at_limit report count max :
  max <= count -> should_refine report count max = Ok false.
Proof.
  intros Hge. unfold should_refine.
  destruct (count >=? max) eqn:E; [reflexivity|lia].
Qed.

Lemma should_refine_true_room report count max :
  should_refine report count max = Ok true -> count < max.
Proof.
  intros Hgo. destruct (Z_lt_ge_dec count max) as [Hlt|Hge]; [assumption|].
  rewrite should_refine_at_limit in Hgo by lia. discriminate.
Qed.

Example should_refine_scenario_high :
  should_refine (Sample.report "high" false) 0 2 = Ok true.
Proof. reflexivity. Qed.

Example should_refine_scenario_low :
  should_refine (Sample.report "low" false) 1 2 = Ok false.
Proof. reflexivity. Qed.

Example should_refine_default_limit :
  should_refine (Sample.report "critical" false)
    DEFAULT_MAX_REFINEMENT_ITERATIONS DEFAULT_MAX_REFINEMENT_ITERATIONS
  = Ok false.
Proof. reflexivity. Qed.

(** A severity that is not a string makes [.lower()] fail below the
    limit, and only there. *)
Example should_refine_severity_none :
  should_refine (<["severity_level" := PyNone]> ∅) 0 2
  = Raise (Exn AttributeError "'NoneType' object has no attribute 'lower'")
  /\ should_refine (<["severity_level" := PyNone]> ∅) 2 2 = Ok false.
Proof. split; reflexivity. Qed.

(** C1: below the iteration limit, a report of the data model is sent to
    refinement exactly when it is not approved and its severity is
    medium, high or critical; the call never raises, and an approved
    report is never refined, whatever its severity string. *)
Theorem should_refine_decision (report : gmap string pyval)
    (sev : severity) (approved : bool) (count max : Z) :
  count < max ->
  has_fields report sev approved ->
  (should_refine report count max = Ok true <->
     approved = false /\ sev ∈ [SevMedium; SevHigh; SevCritical]) /\
  (should_refine report count max = Ok false <->
     ~ (approved = false /\ sev ∈ [SevMedium; SevHigh; SevCritical])) /\
  (approved = true -> should_refine report count max = Ok false) /\
  (forall (other : gmap string pyval) (s : string) (c m : Z),
      other !! "approved" = Some (PyBool true) ->
      other !! "severity_level" = Some (PyStr s) ->
      should_refine other c m = Ok false).
Proof.
  intros Hlt [Hsev Happ].
  pose proof (should_refine_str report count max _ Hlt Hsev) as E.
  unfold dict_get in E. rewrite Happ in E. rewrite E. clear E.
  assert (Hmem : sev ∈ [SevMedium; SevHigh; SevCritical] <->
                 PyStr.in_list (PyStr.lower (severity_name sev))
                   ["medium"; "high"; "critical"] = true).
  { destruct sev; simpl; split; intros Hx; try reflexivity;
      try discriminate; solve [sev_in | sev_out Hx]. }
  assert (Hdec : negb (truthy (PyBool approved))
                 && PyStr.in_list (PyStr.lower (severity_name sev))
                      ["medium"; "high"; "critical"] = true <->
                 approved = false /\ sev ∈ [SevMedium; SevHigh; SevCritical]).
  { rewrite Hmem, andb_true_iff, negb_true_iff. reflexivity. }
  split; [|split; [|split]].
  - rewrite <- Hdec. split; [intros [=]; assumption | intros ->; reflexivity].
  - rewrite <- Hdec. destruct (_ && _); split; intros Hx;
      try reflexivity; try discriminate; try congruence.
  - intros ->. reflexivity.
  - intros other s c m Ha Hs.
    destruct (Z_lt_ge_dec c m) as [Hcm|Hcm].
    + rewrite (should_refine_str other c m s Hcm Hs).
      unfold dict_get. now rewrite Ha.
    + apply should_refine_at_limit. lia.
Qed.

Lemma should_refine_decision_witness :
  0 < 2 /\
  has_fields (Sample.report "high" false) SevHigh false /\
  (should_refine (Sample.report "high" false) 0 2 = Ok true <->
     false = false /\ SevHigh ∈ [SevMedium; SevHigh; SevCritical]).
Proof.
  assert (H0 : 0 < 2) by lia.
  assert (H1 : has_fields (Sample.report "high" false) SevHigh false)
    by (split; reflexivity).
  split; [exact H0|]. split; [exact H1|].
  exact (proj1 (should_refine_decision _ _ _ _ _ H0 H1)).
Defined.

(** *** The loop driven by the decision *)

Section Loop.
Variable auditor : string -> gmap string pyval.
Variable refiner : string -> gmap string pyval -> string.
Variable max : Z.

Local Abbreviation step := (refines_to auditor refiner max).
Local Abbreviation loop := (refinement_loop auditor refiner max).

Lemma refines_to_inv st st' :
  step st st' ->
  iteration_count st < max /\
  iteration_count st' = iteration_count st + 1.
Proof.
  unfold refines_to, refine_transition. intros Hstep.
  destruct (should_refine _ _ _) as [go|e] eqn:E; [|discriminate].
  destruct go; simpl in Hstep; [|discriminate].
  apply should_refine_true_room in E.
  injection Hstep as <-. simpl. lia.
Qed.

Lemma iteration_count_bounded st0 st :
  0 <= iteration_count st0 <= max ->
  rtc step st0 st ->
  iteration_count st0 <= iteration_count st <= max.
Proof.
  intros Hinit Hrun.
  apply (rtc_ind_r (R := step)
           (fun s => iteration_count st0 <= iteration_count s <= max) st0);
    [lia| |exact Hrun].
  intros st1 st2 _ Hstep IH. apply refines_to_inv in Hstep. lia.
Qed.

Lemma refinement_loop_fuel fuel st :
  (Z.to_nat (max - iteration_count st) < fuel)%nat ->
  loop fuel st <> OutOfFuel.
Proof.
  revert st. induction fuel as [|fuel IH]; intros st Hfuel; [lia|].
  simpl. destruct (refine_transition _ _ _ st) as [[st'|]|e] eqn:E;
    [|discriminate|discriminate].
  apply refines_to_inv in E. apply IH. lia.
Qed.

Lemma refinement_loop_final fuel st st' :
  loop fuel st = Finalized st' ->
  rtc step st st' /\ refine_transition auditor refiner max st' = Ok None.
Proof.
  revert st. induction fuel as [|fuel IH]; intros st; simpl; [discriminate|].
  destruct (refine_transition _ _ _ st) as [[st1|]|e] eqn:E.
  - intros Hrun. destruct (IH _ Hrun) as [Hreach Hstop].
    split; [|assumption]. eapply rtc_l; [exact E|exact Hreach].
  - intros [= <-]. split; [apply rtc_refl|assumption].
  - discriminate.
Qed.

End Loop.

(** C2: at or past the iteration limit the decision is [False] for every
    report, well formed or not; a [True] answer is given only while one
    more iteration still fits under the limit. *)
Theorem should_refine_hard_stop (report : gmap string pyval) (count max : Z) :
  (max <= count -> should_refine report count max = Ok false) /\
  (should_refine report count max = Ok true -> count + 1 <= max).
Proof.
  split.
  - apply should_refine_at_limit.
  - intros Hgo. apply should_refine_true_room in Hgo. lia.
Qed.

Lemma should_refine_hard_stop_witness :
  2 <= 2 /\
  should_refine (Sample.report "critical" false) 2 2 = Ok false.
Proof.
  assert (H0 : 2 <= 2) by lia.
  split; [exact H0|].
  exact (proj1 (should_refine_hard_stop (Sample.report "critical" false) 2 2) H0).
Defined.

(** The loop that refines once per [True] answer therefore keeps the
    iteration count between 0 and the limit, never decreases it, and
    stops within [max + 1] decisions, in a final state where the
    decision is [False]. *)
Theorem refinement_loop_bounded auditor refiner (max : Z)
    (generated_code : string) :
  0 <= max ->
  (forall st st',
      rtc (refines_to auditor refiner max)
        (audited auditor generated_code) st ->
      rtc (refines_to auditor refiner max) st st' ->
      0 <= iteration_count st <= iteration_count st' /\
      iteration_count st' <= max) /\
  refinement_loop auditor refiner max (S (Z.to_nat max))
    (audited auditor generated_code) <> OutOfFuel /\
  (forall fuel st,
      refinement_loop auditor refiner max fuel
        (audited auditor generated_code) = Finalized st ->
      0 <= iteration_count st <= max /\
      should_refine (audit st) (iteration_count st) max = Ok false).
Proof.
  intros Hmax.
  assert (H0 : 0 <= iteration_count (audited auditor generated_code) <= max)
    by (simpl; lia).
  split; [|split].
  - intros st st' Hreach Hrun.
    pose proof (iteration_count_bounded _ _ _ _ _ H0 Hreach) as H1.
    simpl in H1.
    assert (H2 : 0 <= iteration_count st <= max) by lia.
    pose proof (iteration_count_bounded _ _ _ _ _ H2 Hrun). lia.
  - apply refinement_loop_fuel. simpl. lia.
  - intros fuel st Hfin.
    destruct (refinement_loop_final _ _ _ _ _ _ Hfin) as [Hreach Hstop].
    pose proof (iteration_count_bounded _ _ _ _ _ H0 Hreach) as H1.
    simpl in H1. split; [lia|].
    unfold refine_transition in Hstop.
    destruct (should_refine _ _ _) as [[|]|e]; simpl in Hstop;
      [discriminate|reflexivity|discriminate].
Qed.

(** C3: an unapproved report whose severity is none, low or unknown is
    not refined, for every iteration count and every limit. *)
Theorem should_refine_tolerates_low (report : gmap string pyval)
    (sev : severity) (count max : Z) :
  has_fields report sev false ->
  sev ∈ [SevNone; SevLow; SevUnknown] ->
  should_refine report count max = Ok false.
Proof.
  intros [Hsev Happ] Hin.
  destruct (Z_lt_ge_dec count max) as [Hlt|Hge].
  - rewrite (should_refine_str report count max _ Hlt Hsev).
    unfold dict_get. rewrite Happ.
    destruct sev; try reflexivity; sev_out Hin.
  - apply should_refine_at_limit. lia.
Qed.

Lemma should_refine_tolerates_low_witness :
  has_fields (Sample.report "low" false) SevLow false /\
  SevLow ∈ [SevNone; SevLow; SevUnknown] /\
  should_refine (Sample.report "low" false) 1 2 = Ok false.
Proof.
  assert (H0 : has_fields (Sample.report "low" false) SevLow false)
    by (split; reflexivity).
  assert (H1 : SevLow ∈ [SevNone; SevLow; SevUnknown]) by sev_in.
  split; [exact H0|]. split; [exact H1|].
  exact (should_refine_tolerates_low _ SevLow 1 2 H0 H1).
Defined.

(** C10: a missing [severity_level] counts as ["unknown"], a missing
    [approved] as [False], and the severity is compared in lower case.
    So below the limit the empty report is not refined, and an
    unapproved report whose severity is any case variant of medium, high
    or critical (["HIGH"], ["High"], ...) is refined. *)
Theorem should_refine_defaults (count max : Z) :
  count < max ->
  (forall report : gmap string pyval,
      report !! "severity_level" = None ->
      should_refine report count max =
      should_refine (<["severity_level" := PyStr "unknown"]> report) count max) /\
  (forall report : gmap string pyval,
      report !! "approved" = None ->
      should_refine report count max =
      should_refine (<["approved" := PyBool false]> report) count max) /\
  (forall (report : gmap string pyval) (s : string),
      report !! "severity_level" = Some (PyStr s) ->
      should_refine report count max =
      should_refine (<["severity_level" := PyStr (PyStr.lower s)]> report)
        count max) /\
  should_refine ∅ count max = Ok false /\
  (forall (report : gmap string pyval) (s t : string),
      t ∈ ["medium"; "high"; "critical"] ->
      PyStr.case_variant s t ->
      report !! "severity_level" = Some (PyStr s) ->
      report !! "approved" = Some (PyBool false) ->
      should_refine report count max = Ok true) /\
  should_refine (Sample.report "HIGH" false) count max = Ok true /\
  should_refine (Sample.report "High" false) count max = Ok true.
Proof.
  intros Hlt.
  split; [|split; [|split; [|split; [|split; [|split]]]]].
  - intros report Hnone. rewrite !should_refine_below by assumption.
    unfold dict_get. rewrite Hnone, lookup_insert_eq.
    now rewrite lookup_insert_ne by discriminate.
  - intros report Hnone. rewrite !should_refine_below by assumption.
    unfold dict_get. rewrite Hnone, lookup_insert_eq.
    now rewrite lookup_insert_ne by discriminate.
  - intros report s Hs. rewrite !should_refine_below by assumption.
    unfold dict_get. rewrite Hs, lookup_insert_eq.
    rewrite lookup_insert_ne by discriminate. simpl.
    now rewrite lower_idemp.
  - now rewrite should_refine_below by assumption.
  - intros report s t Ht Hcv Hs Ha.
    rewrite (should_refine_str report count max s Hlt Hs).
    unfold dict_get. rewrite Ha, (case_variant_lower s t Hcv).
    repeat (apply elem_of_cons in Ht as [->|Ht]; [reflexivity|]).
    now apply elem_of_nil in Ht.
  - now rewrite should_refine_below by assumption.
  - now rewrite should_refine_below by assumption.
Qed.

Lemma should_refine_defaults_witness :
  0 < 2 /\ should_refine ∅ 0 2 = Ok false.
Proof.
  assert (H0 : 0 < 2) by lia.
  split; [exact H0|].
  exact (proj1 (proj2 (proj2 (proj2 (should_refine_defaults 0 2 H0))))).
Defined.

(** ** Lines of a text *)

Lemma split_nonempty sep s : PyStr.split sep s <> [].
Proof.
  destruct s as [|c s]; simpl; [discriminate|].
  destruct (Ascii.eqb c sep); [discriminate|].
  destruct (PyStr.split sep s); discriminate.
Qed.

Lemma split_nl_free s : Forall PyStr.nl_free (PyStr.split PyStr.nl s).
Proof.
  induction s as [|c s IH]; simpl.
  - constructor; [intros []|constructor].
  - destruct (Ascii.eqb_spec c PyStr.nl) as [->|Hc].
    + constructor; [intros []|exact IH].
    + destruct (PyStr.split PyStr.nl s) as [|l ls]; simpl.
      * constructor; [|constructor]. intros [E|[]]. congruence.
      * inversion IH as [|? ? Hl Hls]; subst. constructor; [|exact Hls].
        intros [E|Hin]; [congruence|exact (Hl Hin)].
Qed.

Lemma split_single l : PyStr.nl_free l -> PyStr.split PyStr.nl l = [l].
Proof.
  induction l as [|c l IH]; intros Hfree; simpl; [reflexivity|].
  destruct (Ascii.eqb_spec c PyStr.nl) as [->|Hc].
  - exfalso. apply Hfree. now left.
  - rewrite IH; [reflexivity|]. intros Hin. apply Hfree. now right.
Qed.

Lemma split_line_then l rest :
  PyStr.nl_free l ->
  PyStr.split PyStr.nl (l +:+ PyStr.NL +:+ rest)
  = l :: PyStr.split PyStr.nl rest.
Proof.
  induction l as [|c l IH]; intros Hfree; simpl.
  - reflexivity.
  - destruct (Ascii.eqb_spec c PyStr.nl) as [->|Hc].
    + exfalso. apply Hfree. now left.
    + simpl in IH. rewrite IH; [reflexivity|].
      intros Hin. apply Hfree. now right.
Qed.

Lemma split_join ls :
  ls <> [] -> Forall PyStr.nl_free ls ->
  PyStr.split PyStr.nl (PyStr.join PyStr.NL ls) = ls.
Proof.
  induction ls as [|l ls IH]; intros Hne Hfree; [congruence|].
  inversion Hfree as [|? ? Hl Hls]; subst.
  destruct ls as [|l' ls].
  - simpl. now apply split_single.
  - change (PyStr.join PyStr.NL (l :: l' :: ls))
      with (l +:+ PyStr.NL +:+ PyStr.join PyStr.NL (l' :: ls)).
    rewrite split_line_then by assumption.
    rewrite IH; [reflexivity|discriminate|assumption].
Qed.

Lemma join_split s : PyStr.join PyStr.NL (PyStr.split PyStr.nl s) = s.
Proof.
  induction s as [|c s IH]; simpl; [reflexivity|].
  destruct (Ascii.eqb_spec c PyStr.nl) as [->|Hc].
  - pose proof (split_nonempty PyStr.nl s) as Hne.
    destruct (PyStr.split PyStr.nl s) as [|l ls]; [congruence|].
    simpl in *. now rewrite IH.
  - pose proof (split_nonempty PyStr.nl s) as Hne.
    destruct (PyStr.split PyStr.nl s) as [|l ls]; [congruence|].
    destruct ls as [|l' ls]; simpl in *; now rewrite <- IH.
Qed.

Lemma append_loop_filter {A} (skip : A -> bool) (xs acc : list A) :
  fold_left (fun acc x => if skip x then acc else acc ++ [x]) xs acc
  = acc ++ List.filter (fun x => negb (skip x)) xs.
Proof.
  revert acc. induction xs as [|x xs IH]; intros acc; simpl.
  - now rewrite app_nil_r.
  - rewrite IH. destruct (skip x); simpl; [reflexivity|].
    now rewrite <- app_assoc.
Qed.

Lemma Forall_list_filter {A} (P : A -> Prop) (f : A -> bool) (xs : list A) :
  Forall P xs -> Forall P (List.filter f xs).
Proof.
  induction 1 as [|x xs Hx _ IH]; simpl; [constructor|].
  destruct (f x); [constructor; assumption|assumption].
Qed.

(** ** The pragma filter *)

(** C4: the lines of the result are the lines of the source that are not
    version pragmas, unchanged and in their order; a line is dropped
    exactly when its trimmed text starts with ["pragma solidity"].  (A
    text whose lines are all dropped becomes the empty text, which reads
    back as one empty line.) *)
Theorem strip_version_pragma_lines (solidity_code : string) :
  _strip_version_pragma solidity_code
  = PyStr.join PyStr.NL
      (List.filter
         (fun line => negb (PyStr.startswith "pragma solidity" (PyStr.strip line)))
         (PyStr.split PyStr.nl solidity_code)) /\
  PyStr.split PyStr.nl (_strip_version_pragma solidity_code)
  = match
      List.filter
        (fun line => negb (PyStr.startswith "pragma solidity" (PyStr.strip line)))
        (PyStr.split PyStr.nl solidity_code)
    with
    | [] => [EmptyString]
    | kept => kept
    end.
Proof.
  assert (E : _strip_version_pragma solidity_code
              = PyStr.join PyStr.NL
                  (List.filter
                     (fun line => negb (PyStr.startswith "pragma solidity"
                                          (PyStr.strip line)))
                     (PyStr.split PyStr.nl solidity_code))).
  { unfold _strip_version_pragma, is_pragma_line.
    now rewrite (append_loop_filter
                   (fun line => PyStr.startswith "pragma solidity"
                                  (PyStr.strip line))). }
  split; [exact E|]. rewrite E.
  pose proof (Forall_list_filter PyStr.nl_free
                (fun line => negb (PyStr.startswith "pragma solidity"
                                     (PyStr.strip line)))
                _ (split_nl_free solidity_code)) as Hfree.
  destruct (List.filter _ _) as [|l ls] eqn:Ek; [reflexivity|].
  apply split_join; [discriminate|exact Hfree].
Qed.

Example strip_version_pragma_sample :
  _strip_version_pragma
    ("// SPDX" +:+ PyStr.NL +:+ "  pragma solidity ^0.8.0; " +:+ PyStr.NL
     +:+ "contract C {" +:+ PyStr.NL +:+ "}")
  = "// SPDX" +:+ PyStr.NL +:+ "contract C {" +:+ PyStr.NL +:+ "}".
Proof. reflexivity. Qed.

Lemma strip_version_pragma_no_pragma (solidity_code : string) :
  Forall (fun line => is_pragma_line line = false)
    (PyStr.split PyStr.nl solidity_code) ->
  _strip_version_pragma solidity_code = solidity_code.
Proof.
  intros Hnone. unfold _strip_version_pragma.
  rewrite append_loop_filter. simpl.
  rewrite <- (join_split solidity_code) at 2. f_equal.
  induction Hnone as [|l ls Hl _ IH]; simpl; [reflexivity|].
  now rewrite Hl, IH.
Qed.

(** ** Substrings *)

Lemma append_assoc (a b c : string) : (a +:+ b) +:+ c = a +:+ b +:+ c.
Proof.
  induction a as [|x a IH]; [reflexivity|].
  change (String x ((a +:+ b) +:+ c) = String x (a +:+ b +:+ c)).
  now f_equal.
Qed.

Lemma append_empty_r (a : string) : a +:+ "" = a.
Proof.
  induction a as [|x a IH]; [reflexivity|].
  change (String x (a +:+ "") = String x a). now f_equal.
Qed.

Lemma startswith_prefix p s :
  PyStr.startswith p s = true <-> exists b, s = p +:+ b.
Proof.
  revert s. induction p as [|x p IH]; intros s; simpl.
  - split; [intros _; now exists s|reflexivity].
  - destruct s as [|y s].
    + split; [discriminate|intros [b [=]]].
    + rewrite andb_true_iff, IH. split.
      * intros [Hxy [b ->]]. apply Ascii.eqb_eq in Hxy as ->. now exists b.
      * intros [b [= -> ->]]. split; [apply Ascii.eqb_refl|now exists b].
Qed.

Lemma contains_infix sub s :
  PyStr.contains sub s = true <-> exists a b, s = a +:+ sub +:+ b.
Proof.
  split.
  - induction s as [|y s IH]; simpl; rewrite orb_true_iff.
    + intros [Hp|[=]]. apply startswith_prefix in Hp as [b ->].
      now exists "", b.
    + intros [Hp|Hc].
      * apply startswith_prefix in Hp as [b ->]. now exists "", b.
      * destruct (IH Hc) as (a & b & ->). now exists (String y a), b.
  - intros (a & b & ->). induction a as [|x a IH].
    + simpl. destruct (sub +:+ b) eqn:E; simpl; apply orb_true_iff; left;
        apply startswith_prefix; exists b; now rewrite E.
    + simpl. apply orb_true_iff. right. exact IH.
Qed.

Lemma join_member sep line ls :
  In line ls -> exists a b, PyStr.join sep ls = a +:+ line +:+ b.
Proof.
  induction ls as [|l ls IH]; intros Hin; [destruct Hin|].
  destruct Hin as [->|Hin].
  - destruct ls as [|l' ls].
    + exists "", "". simpl. now rewrite append_empty_r.
    + now exists "", (sep +:+ PyStr.join sep (l' :: ls)).
  - destruct (IH Hin) as (a & b & E). destruct ls as [|l' ls]; [destruct Hin|].
    change (PyStr.join sep (l :: l' :: ls))
      with (l +:+ sep +:+ PyStr.join sep (l' :: ls)).
    rewrite E. exists (l +:+ sep +:+ a), b.
    now rewrite !append_assoc.
Qed.

Lemma contains_line sub s line :
  In line (PyStr.split PyStr.nl s) ->
  PyStr.contains sub line = true -> PyStr.contains sub s = true.
Proof.
  intros Hin Hc. apply contains_infix in Hc as (a & b & ->).
  destruct (join_member PyStr.NL _ _ Hin) as (a' & b' & E).
  rewrite join_split in E. apply contains_infix.
  exists (a' +:+ a), (b +:+ b'). rewrite E.
  now rewrite !append_assoc.
Qed.

Lemma collect_loop_filter {A B} (keep : A -> bool) (f : A -> B)
    (xs : list A) (acc : list B) :
  fold_left (fun acc x => if keep x then acc ++ [f x] else acc) xs acc
  = acc ++ List.map f (List.filter keep xs).
Proof.
  revert acc. induction xs as [|x xs IH]; intros acc; simpl.
  - now rewrite app_nil_r.
  - rewrite IH. destruct (keep x); simpl; [|reflexivity].
    now rewrite <- app_assoc.
Qed.

Lemma filter_none {A} (keep : A -> bool) (xs : list A) :
  (forall x, In x xs -> keep x = false) -> List.filter keep xs = [].
Proof.
  induction xs as [|x xs IH]; intros Hnone; simpl; [reflexivity|].
  rewrite (Hnone x) by now left. apply IH. intros y Hy. apply Hnone. now right.
Qed.

(** The warnings of a successful run: the lines of the error output
    that contain the marker, each one trimmed, in their order. *)
Lemma extract_warnings_lines stderr :
  extract_warnings stderr
  = List.map PyStr.strip
      (List.filter (PyStr.contains "Warning:") (PyStr.split PyStr.nl stderr)).
Proof.
  unfold extract_warnings.
  destruct (PyStr.contains "Warning:" stderr) eqn:E.
  - now rewrite collect_loop_filter.
  - rewrite filter_none; [reflexivity|]. intros line Hin.
    destruct (PyStr.contains "Warning:" line) eqn:El; [|reflexivity].
    now rewrite (contains_line _ _ _ Hin El) in E.
Qed.

(** ** The compilation checker *)

Section CheckerFacts.
Context `{Host}.

Lemma cleanup_result tmp_path w :
  cleanup tmp_path w
  = (Ok tt, {| files := delete tmp_path (files w); dirs := dirs w |}).
Proof.
  unfold cleanup, try_except, os_unlink.
  destruct (files w !! tmp_path) eqn:E; [reflexivity|].
  unfold ret. destruct w as [fs ds]. simpl in *. now rewrite delete_id.
Qed.



Lemma compile_step_result self dir tmp_path w :
  compile_step self dir tmp_path w
  = (fst (try_block self dir tmp_path w),
     {| files := delete tmp_path (files (snd (try_block self dir tmp_path w)));
        dirs := dirs (snd (try_block self dir tmp_path w)) |}).
Proof.
  unfold compile_step, try_finally.
  destruct (try_block self dir tmp_path w) as [r wb].
  now rewrite cleanup_result.
Qed.

Lemma check_compilation_staged self solidity_code w :
  solc_available self = true ->
  files w !! output_dir = None ->
  check_compilation self solidity_code w
  = compile_step self output_dir
      (fst (staged solidity_code w)) (snd (staged solidity_code w)).
Proof.
  intros Hsolc Hdir. unfold check_compilation. rewrite Hsolc. simpl.
  unfold bind, mkdir_exist_ok. rewrite Hdir. reflexivity.
Qed.

(** The [try] block when the compiler command is a non-empty list. *)
Lemma run_compiler_command self c cs tmp_path w :
  compiler_cmd self = Some (c :: cs) ->
  run_compiler self output_dir tmp_path w
  = (let! result :=
       subprocess_run (compile_command c cs tmp_path) 30 (String.eqb c "npx") in
     let! version_result :=
       subprocess_run ((c :: cs) ++ ["--version"]) 5 (String.eqb c "npx") in
     let compiler_version :=
       if returncode version_result =? 0
       then PyStr.strip (stdout version_result)
       else "unknown" in
     if returncode result =? 0 then
       ret {| compiles := Some true;
              error_message := None;
              warnings := extract_warnings (stderr result);
              compiler_version := Some compiler_version |}
     else
       ret {| compiles := Some false;
              error_message := Some (PyStr.strip (stderr result));
              warnings := [];
              compiler_version := Some compiler_version |}) w.
Proof.
  intros Hcmd. unfold run_compiler, compile_command. rewrite Hcmd.
  unfold bind at 1, lift at 1. simpl.
  destruct (String.eqb c "npx"); reflexivity.
Qed.

(** The [try] block raises what a failing compiler command raises. *)
Lemma run_compiler_fault self c cs tmp_path w e w1 :
  compiler_cmd self = Some (c :: cs) ->
  subprocess_run (compile_command c cs tmp_path) 30 (String.eqb c "npx") w
  = (Raise e, w1)
  \/ (exists result w0,
        subprocess_run (compile_command c cs tmp_path) 30 (String.eqb c "npx") w
        = (Ok result, w0)
        /\ subprocess_run ((c :: cs) ++ ["--version"]) 5 (String.eqb c "npx") w0
           = (Raise e, w1)) ->
  exists wb, run_compiler self output_dir tmp_path w = (Raise e, wb).
Proof.
  intros Hcmd Hfault. rewrite (run_compiler_command self c cs) by assumption.
  unfold bind. destruct Hfault as [Hrun|(result & w0 & Hrun & Hver)].
  - rewrite Hrun. now exists w1.
  - rewrite Hrun, Hver. now exists w1.
Qed.

End CheckerFacts.

Section CheckerClaims.
Context `{Host}.

(** C5: without a compiler the check answers at once, for every source
    text: [compiles] is [None], the message says that solc is not
    available, there are no warnings and no version; nothing is raised
    and the host is left as it was. *)
Theorem check_compilation_unavailable (self : SolidityCompilationChecker)
    (solidity_code : string) (w : world) :
  solc_available self = false ->
  check_compilation self solidity_code w
  = (Ok {| compiles := None;
           error_message :=
             Some "solc compiler not available. Install with: npm install -g solc";
           warnings := [];
           compiler_version := None |},
     w).
Proof. intros Hsolc. unfold check_compilation. now rewrite Hsolc. Qed.

(** The constructor finds no compiler when both version commands fail
    to report one; the convenience function then answers as above. *)
Lemma check_solidity_compiles_unavailable solidity_code w w1 w2 :
  probe ["solc"; "--version"] false w = (Ok false, w1) ->
  probe ["npx"; "solcjs"; "--version"] true w1 = (Ok false, w2) ->
  check_solidity_compiles solidity_code w = (Ok unavailable_result, w2).
Proof.
  intros H1 H2.
  unfold check_solidity_compiles, __init__, _check_solc_available, bind.
  now rewrite H1, H2.
Qed.

(** C6, as the code has it: when the compile command and the version
    query after it both complete, a
    run with return code 0 reports as warnings the error-output lines
    that contain ["Warning:"], each one trimmed, in their order; a run
    with another return code reports no warnings and the whole trimmed
    error output, warning lines included, as the error message. *)
Theorem check_compilation_output (self : SolidityCompilationChecker)
    (solidity_code : string) (w : world) (c : string) (cs : list string)
    (result version_result : completed_process) (w1 w2 : world) :
  solc_available self = true ->
  compiler_cmd self = Some (c :: cs) ->
  files w !! output_dir = None ->
  subprocess_run (compile_command c cs (fst (staged solidity_code w))) 30
    (String.eqb c "npx") (snd (staged solidity_code w)) = (Ok result, w1) ->
  subprocess_run ((c :: cs) ++ ["--version"]) 5 (String.eqb c "npx") w1
  = (Ok version_result, w2) ->
  fst (check_compilation self solidity_code w)
  = Ok (if returncode result =? 0 then
          {| compiles := Some true;
             error_message := None;
             warnings :=
               List.map PyStr.strip
                 (List.filter (PyStr.contains "Warning:")
                    (PyStr.split PyStr.nl (stderr result)));
             compiler_version :=
               Some (if returncode version_result =? 0
                     then PyStr.strip (stdout version_result)
                     else "unknown") |}
        else
          {| compiles := Some false;
             error_message := Some (PyStr.strip (stderr result));
             warnings := [];
             compiler_version :=
               Some (if returncode version_result =? 0
                     then PyStr.strip (stdout version_result)
                     else "unknown") |}).
Proof.
  intros Hsolc Hcmd Hdir Hrun Hver.
  rewrite check_compilation_staged, compile_step_result by assumption.
  cbn [fst snd]. unfold try_block, try_except.
  rewrite (run_compiler_command self c cs) by assumption.
  unfold bind. rewrite Hrun, Hver.
  destruct (returncode result =? 0); cbn [fst ret]; [|reflexivity].
  now rewrite extract_warnings_lines.
Qed.

(** C7: when a compiler command times out or raises any other
    exception, the check still returns: [compiles] is [False], the
    message names the timeout or carries the text of the exception,
    and nothing is raised to the caller. *)
Theorem check_compilation_contains_faults (self : SolidityCompilationChecker)
    (solidity_code : string) (w : world) (c : string) (cs : list string)
    (e : py_exn) (w1 : world) :
  solc_available self = true ->
  compiler_cmd self = Some (c :: cs) ->
  files w !! output_dir = None ->
  subprocess_run (compile_command c cs (fst (staged solidity_code w))) 30
    (String.eqb c "npx") (snd (staged solidity_code w)) = (Raise e, w1)
  \/ (exists result w0,
        subprocess_run (compile_command c cs (fst (staged solidity_code w))) 30
          (String.eqb c "npx") (snd (staged solidity_code w)) = (Ok result, w0)
        /\ subprocess_run ((c :: cs) ++ ["--version"]) 5 (String.eqb c "npx") w0
           = (Raise e, w1)) ->
  (exn_cls e = TimeoutExpired ->
   fst (check_compilation self solidity_code w)
   = Ok {| compiles := Some false;
           error_message := Some "Compilation timed out after 30 seconds";
           warnings := [];
           compiler_version := None |}) /\
  (exn_cls e <> TimeoutExpired ->
   fst (check_compilation self solidity_code w)
   = Ok {| compiles := Some false;
           error_message :=
             Some ("Unexpected error during compilation: " +:+ exn_str e);
           warnings := [];
           compiler_version := None |}).
Proof.
  intros Hsolc Hcmd Hdir Hfault.
  rewrite check_compilation_staged, compile_step_result by assumption.
  cbn [fst snd]. unfold try_block, try_except.
  destruct (run_compiler_fault self c cs _ _ e w1 Hcmd Hfault) as [wb ->].
  unfold on_exception, exn_is.
  split; intros Hcls.
  - rewrite bool_decide_eq_true_2; [reflexivity|].
    rewrite Hcls. apply list_elem_of_here.
  - rewrite bool_decide_eq_false_2; [reflexivity|].
    intros Hin. apply elem_of_cons in Hin as [Hin|Hin]; [congruence|].
    now apply elem_of_nil in Hin.
Qed.


End CheckerClaims.

Lemma check_compilation_unavailable_witness :
  solc_available Sample.absent = false /\
  check_compilation (H := Sample.bare_host) Sample.absent Sample.source
    Sample.empty_world
  = (Ok {| compiles := None;
           error_message :=
             Some "solc compiler not available. Install with: npm install -g solc";
           warnings := [];
           compiler_version := None |},
     Sample.empty_world).
Proof.
  split; [reflexivity|].
  apply (check_compilation_unavailable (H := Sample.bare_host)). reflexivity.
Defined.

Example check_solidity_compiles_bare_host :
  check_solidity_compiles (H := Sample.bare_host) Sample.source
    Sample.empty_world
  = (Ok unavailable_result, Sample.empty_world).
Proof.
  apply (check_solidity_compiles_unavailable (H := Sample.bare_host)
           _ _ Sample.empty_world); reflexivity.
Qed.

Lemma check_compilation_output_witness :
  fst (check_compilation (H := Sample.solc_host (Ok Sample.warned_run))
         Sample.native Sample.source Sample.empty_world)
  = Ok {| compiles := Some true;
          error_message := None;
          warnings := ["Warning: unused variable"];
          compiler_version := Some "solc, the solidity compiler 0.8.20" |}.
Proof.
  exact (check_compilation_output (H := Sample.solc_host (Ok Sample.warned_run))
           Sample.native Sample.source Sample.empty_world "solc" []
           Sample.warned_run
           (CompletedProcess 0 "solc, the solidity compiler 0.8.20 " "")
           _ _ eq_refl eq_refl eq_refl eq_refl eq_refl).
Defined.

(** C6 as worded does not hold.  A failed run whose error output has a
    line with the marker reports no warning at all and repeats that line
    inside the error message; a successful run reports the line without
    its surrounding blanks, not verbatim; and a successful run whose
    version query times out reports no warning either, but a failure. *)
Lemma check_compilation_warnings_as_worded :
  (exists r,
      fst (check_compilation (H := Sample.solc_host (Ok Sample.failed_run))
             Sample.native Sample.source Sample.empty_world) = Ok r
      /\ List.filter (PyStr.contains "Warning:")
           (PyStr.split PyStr.nl (stderr Sample.failed_run))
         = ["Warning: unused variable"]
      /\ warnings r = []
      /\ error_message r = Some (stderr Sample.failed_run)) /\
  (exists r,
      fst (check_compilation (H := Sample.solc_host (Ok Sample.warned_run))
             Sample.native Sample.source Sample.empty_world) = Ok r
      /\ List.filter (PyStr.contains "Warning:")
           (PyStr.split PyStr.nl (stderr Sample.warned_run))
         = ["  Warning: unused variable "]
      /\ warnings r = ["Warning: unused variable"]
      /\ warnings r
         <> List.filter (PyStr.contains "Warning:")
              (PyStr.split PyStr.nl (stderr Sample.warned_run))) /\
  (returncode Sample.warned_run = 0
   /\ List.filter (PyStr.contains "Warning:")
        (PyStr.split PyStr.nl (stderr Sample.warned_run))
      = ["  Warning: unused variable "]
   /\ fst (check_compilation (H := Case.version_timeout_host)
             Sample.native Sample.source Sample.empty_world)
      = Ok {| compiles := Some false;
              error_message := Some "Compilation timed out after 30 seconds";
              warnings := [];
              compiler_version := None |}).
Proof.
  split; [|split].
  - eexists. split; [reflexivity|]. repeat split.
  - eexists. split; [reflexivity|]. repeat split. discriminate.
  - repeat split.
Qed.

Lemma check_compilation_contains_faults_witness :
  exn_cls Sample.timeout = TimeoutExpired /\
  fst (check_compilation (H := Sample.solc_host (Raise Sample.timeout))
         Sample.native Sample.source Sample.empty_world)
  = Ok {| compiles := Some false;
          error_message := Some "Compilation timed out after 30 seconds";
          warnings := [];
          compiler_version := None |}.
Proof.
  split; [reflexivity|].
  refine (proj1 (check_compilation_contains_faults
                   (H := Sample.solc_host (Raise Sample.timeout))
                   Sample.native Sample.source Sample.empty_world "solc" []
                   Sample.timeout _ eq_refl eq_refl eq_refl
                   (or_introl eq_refl)) eq_refl).
Defined.



(** ** The launcher *)

(** C9: without demo.html the check prints the error and exits with
    status 1; with demo.html but without sampler.html it prints the
    warning and the script goes on to start the servers, as it does when
    both files are there.  The check exits for no other reason. *)
Theorem asset_check_outcomes (workspace_root : string) (w : world) :
  (path_exists w
     (path_div (path_div workspace_root "contract-translator") "demo.html")
   = false ->
   asset_check workspace_root w
   = ([ErrorDemoNotFound
         (path_div (path_div workspace_root "contract-translator") "demo.html")],
      SysExit 1)) /\
  (path_exists w
     (path_div (path_div workspace_root "contract-translator") "demo.html")
   = true ->
   path_exists w
     (path_div (path_div workspace_root "contract-translator") "sampler.html")
   = false ->
   asset_check workspace_root w
   = ([WarningSamplerNotFound
         (path_div (path_div workspace_root "contract-translator")
            "sampler.html");
       DatasetBrowserNotAvailable],
      StartServers)) /\
  (path_exists w
     (path_div (path_div workspace_root "contract-translator") "demo.html")
   = true ->
   path_exists w
     (path_div (path_div workspace_root "contract-translator") "sampler.html")
   = true ->
   asset_check workspace_root w = ([DemoFilesFound], StartServers)) /\
  (forall status, snd (asset_check workspace_root w) = SysExit status ->
     status = 1 /\
     path_exists w
       (path_div (path_div workspace_root "contract-translator") "demo.html")
     = false).
Proof.
  unfold asset_check. split; [|split; [|split]].
  - intros ->. reflexivity.
  - intros -> ->. reflexivity.
  - intros -> ->. reflexivity.
  - intros status.
    destruct (path_exists w (path_div (path_div workspace_root _) "demo.html"));
      simpl.
    + destruct (path_exists w _); simpl; discriminate.
    + intros [= <-]. split; reflexivity.
Qed.

Lemma asset_check_outcomes_witness :
  asset_check "/srv/app" Sample.empty_world
  = ([ErrorDemoNotFound "/srv/app/contract-translator/demo.html"], SysExit 1) /\
  asset_check "/srv/app" Sample.site
  = ([WarningSamplerNotFound "/srv/app/contract-translator/sampler.html";
      DatasetBrowserNotAvailable],
     StartServers).
Proof.
  split.
  - exact (proj1 (asset_check_outcomes "/srv/app" Sample.empty_world) eq_refl).
  - exact (proj1 (proj2 (asset_check_outcomes "/srv/app" Sample.site))
             eq_refl eq_refl).
Defined.

(** * Further properties of the code *)

(** ** The decision, over arbitrary dictionaries *)

(** X1: [should_refine] raises in one situation only: below the limit,
    with a [severity_level] that is present and is not a string; the
    exception is then the [AttributeError] of the missing [lower]. *)
Theorem should_refine_raises_iff (report : gmap string pyval)
    (count max : Z) (e : py_exn) :
  should_refine report count max = Raise e <->
  count < max /\
  exists v, report !! "severity_level" = Some v /\
            (forall s, v <> PyStr s) /\
            e = Exn AttributeError
                  ("'" +:+ type_name v +:+ "' object has no attribute 'lower'").
Proof.
  split.
  - intros Hraise. destruct (Z_lt_ge_dec count max) as [Hlt|Hge].
    + split; [assumption|]. rewrite should_refine_below in Hraise by assumption.
      unfold dict_get in Hraise.
      destruct (report !! "severity_level") as [v|] eqn:Ev; [|discriminate].
      exists v. split; [reflexivity|].
      destruct v; simpl in Hraise; try discriminate;
        injection Hraise as <-; (split; [intros s; discriminate|reflexivity]).
    + rewrite should_refine_at_limit in Hraise by lia. discriminate.
  - intros (Hlt & v & Hv & Hns & ->).
    rewrite should_refine_below by assumption. unfold dict_get. rewrite Hv.
    destruct v; try reflexivity. exfalso. exact (Hns s eq_refl).
Qed.

(** X2: the decision reads the report through the keys [severity_level]
    and [approved] only: two reports that agree on both get the same
    answer, whatever their issues, recommendations or other keys. *)
Theorem should_refine_frame (report1 report2 : gmap string pyval)
    (count max : Z) :
  report1 !! "severity_level" = report2 !! "severity_level" ->
  report1 !! "approved" = report2 !! "approved" ->
  should_refine report1 count max = should_refine report2 count max.
Proof.
  intros Hsev Happ. unfold should_refine, dict_get.
  now rewrite Hsev, Happ.
Qed.

Lemma should_refine_frame_witness :
  should_refine
    (<["issues" := PyList [PyStr "reentrancy in withdraw"]]>
       (Sample.report "high" false)) 0 2
  = should_refine (Sample.report "high" false) 0 2.
Proof.
  apply (should_refine_frame
           (<["issues" := PyList [PyStr "reentrancy in withdraw"]]>
              (Sample.report "high" false))
           (Sample.report "high" false) 0 2); reflexivity.
Defined.

(** X3: a refusal is final: once the answer is [False] for some count,
    it is [False] for every larger count under the same limit. *)
Theorem should_refine_stays_false (report : gmap string pyval)
    (count count' max : Z) :
  should_refine report count max = Ok false ->
  count <= count' ->
  should_refine report count' max = Ok false.
Proof.
  intros Hno Hle. destruct (Z_lt_ge_dec count' max) as [Hlt|Hge].
  - rewrite should_refine_below in * by lia. exact Hno.
  - apply should_refine_at_limit. lia.
Qed.

Lemma should_refine_stays_false_witness :
  should_refine (Sample.report "low" false) 0 5 = Ok false /\
  0 <= 3 /\
  should_refine (Sample.report "low" false) 3 5 = Ok false.
Proof.
  assert (H0 : should_refine (Sample.report "low" false) 0 5 = Ok false)
    by reflexivity.
  assert (H1 : 0 <= 3) by lia.
  split; [exact H0|]. split; [exact H1|].
  exact (should_refine_stays_false _ 0 3 5 H0 H1).
Defined.

(** X4: below the limit the answer does not depend on how many
    iterations were done nor on the limit itself. *)
Theorem should_refine_below_limit_same (report : gmap string pyval)
    (count1 max1 count2 max2 : Z) :
  count1 < max1 -> count2 < max2 ->
  should_refine report count1 max1 = should_refine report count2 max2.
Proof.
  intros H1 H2. now rewrite !should_refine_below by assumption.
Qed.

Lemma should_refine_below_limit_same_witness :
  0 < 2 /\ 7 < 10 /\
  should_refine (Sample.report "medium" false) 0 2
  = should_refine (Sample.report "medium" false) 7 10.
Proof.
  assert (H0 : 0 < 2) by lia. assert (H1 : 7 < 10) by lia.
  split; [exact H0|]. split; [exact H1|].
  exact (should_refine_below_limit_same _ 0 2 7 10 H0 H1).
Defined.

(** ** The pragma filter, again *)

Lemma filter_keeps_all {A} (keep : A -> bool) (xs : list A) :
  Forall (fun x => keep x = true) xs -> List.filter keep xs = xs.
Proof.
  induction 1 as [|x xs Hx _ IH]; simpl; [reflexivity|].
  now rewrite Hx, IH.
Qed.

Lemma filter_satisfies {A} (keep : A -> bool) (xs : list A) :
  Forall (fun x => keep x = true) (List.filter keep xs).
Proof.
  induction xs as [|x xs IH]; simpl; [constructor|].
  destruct (keep x) eqn:E; [constructor; assumption|assumption].
Qed.

Lemma strip_version_pragma_kept (solidity_code : string) :
  exists kept,
    Forall (fun line => negb (is_pragma_line line) = true) kept /\
    Forall PyStr.nl_free kept /\
    _strip_version_pragma solidity_code = PyStr.join PyStr.NL kept /\
    PyStr.split PyStr.nl (_strip_version_pragma solidity_code)
    = match kept with [] => [EmptyString] | _ => kept end.
Proof.
  exists (List.filter (fun line => negb (is_pragma_line line))
            (PyStr.split PyStr.nl solidity_code)).
  assert (Hfree : Forall PyStr.nl_free
                    (List.filter (fun line => negb (is_pragma_line line))
                       (PyStr.split PyStr.nl solidity_code)))
    by apply Forall_list_filter, split_nl_free.
  assert (E : _strip_version_pragma solidity_code
              = PyStr.join PyStr.NL
                  (List.filter (fun line => negb (is_pragma_line line))
                     (PyStr.split PyStr.nl solidity_code))).
  { unfold _strip_version_pragma. now rewrite append_loop_filter. }
  split; [apply filter_satisfies|]. split; [exact Hfree|].
  split; [exact E|]. rewrite E.
  destruct (List.filter _ _) as [|l ls]; [reflexivity|].
  apply split_join; [discriminate|exact Hfree].
Qed.

(** X5: no line of the result is a version pragma. *)
Theorem strip_version_pragma_clean (solidity_code : string) :
  Forall (fun line => is_pragma_line line = false)
    (PyStr.split PyStr.nl (_strip_version_pragma solidity_code)).
Proof.
  destruct (strip_version_pragma_kept solidity_code)
    as (kept & Hkept & _ & _ & ->).
  destruct kept as [|l ls].
  - constructor; [reflexivity|constructor].
  - eapply Forall_impl; [exact Hkept|].
    intros line Hline. simpl in Hline. now apply negb_true_iff in Hline.
Qed.

(** X6: filtering twice is filtering once; so a check of code that was
    filtered before behaves like the check of the original code. *)
Theorem strip_version_pragma_idempotent `{Host} (solidity_code : string) :
  _strip_version_pragma (_strip_version_pragma solidity_code)
  = _strip_version_pragma solidity_code /\
  forall self w,
    check_compilation self (_strip_version_pragma solidity_code) w
    = check_compilation self solidity_code w.
Proof.
  assert (Hidem : _strip_version_pragma (_strip_version_pragma solidity_code)
                  = _strip_version_pragma solidity_code);
    [|split; [exact Hidem|intros self w; unfold check_compilation;
                          now rewrite Hidem]].
  destruct (strip_version_pragma_kept solidity_code)
    as (kept & Hkept & _ & E & Hsplit).
  assert (Hagain :
            List.filter (fun line => negb (is_pragma_line line))
              (match kept with [] => [EmptyString] | _ => kept end)
            = match kept with [] => [EmptyString] | _ => kept end).
  { destruct kept; [reflexivity|]. exact (filter_keeps_all _ _ Hkept). }
  unfold _strip_version_pragma at 1.
  rewrite append_loop_filter, Hsplit, Hagain, E.
  now destruct kept.
Qed.

(** X7: a text without version pragma comes back unchanged, line breaks
    and blanks included. *)
Theorem strip_version_pragma_identity (solidity_code : string) :
  Forall (fun line => is_pragma_line line = false)
    (PyStr.split PyStr.nl solidity_code) ->
  _strip_version_pragma solidity_code = solidity_code.
Proof.
  intros Hnone. unfold _strip_version_pragma.
  rewrite append_loop_filter. simpl app.
  rewrite filter_keeps_all; [apply join_split|].
  eapply Forall_impl; [exact Hnone|].
  intros line Hline. simpl in Hline. now rewrite Hline.
Qed.

Lemma strip_version_pragma_identity_witness :
  _strip_version_pragma
    ("contract Escrow {" +:+ PyStr.NL +:+ "  // pragma solidity" +:+ PyStr.NL
     +:+ "}" +:+ PyStr.NL)
  = "contract Escrow {" +:+ PyStr.NL +:+ "  // pragma solidity" +:+ PyStr.NL
    +:+ "}" +:+ PyStr.NL.
Proof.
  apply strip_version_pragma_identity.
  repeat constructor.
Defined.

(** ** The task of the refiner *)

Lemma upper_char_upper_ascii c :
  PyText.upper_char (PyStr.upper_ascii c) = PyText.upper_char c.
Proof. destruct c as [[] [] [] [] [] [] [] []]; reflexivity. Qed.

Lemma case_variant_upper s t :
  PyStr.case_variant s t -> PyText.upper s = PyText.upper t.
Proof.
  unfold PyText.upper.
  induction 1 as [|c s t _ IH|c s t _ IH]; simpl.
  - reflexivity.
  - now rewrite IH.
  - now rewrite upper_char_upper_ascii, IH.
Qed.

Lemma bullet_lines_falsy (items : pyval) (fallback : string) :
  truthy items = false -> bullet_lines items fallback = Ok fallback.
Proof. intros Hf. unfold bullet_lines. now rewrite Hf. Qed.





(** X10: the contract code enters the task verbatim, right after the
    fixed opening that ends with the code fence, and nothing else in the
    task depends on it. *)
Theorem task_description_embeds_code (solidity_code : string)
    (report : gmap string pyval) (text : PyText.text) :
  create_refinement_task_description solidity_code report = Ok text ->
  exists rest,
    text = PyText.of_str task_head ++ PyText.of_str solidity_code ++ rest /\
    forall other_code,
      create_refinement_task_description other_code report
      = Ok (PyText.of_str task_head ++ PyText.of_str other_code ++ rest).
Proof.
  unfold create_refinement_task_description. intros Hok.
  destruct (bullet_lines (dict_get report "issues" _) _) as [it|];
    [|discriminate].
  destruct (bullet_lines (dict_get report "recommendations" _) _) as [rt|];
    [|discriminate].
  destruct (py_upper _) as [up|]; [|discriminate].
  cbn [rbind] in *. injection Hok as <-. eexists. split; reflexivity.
Qed.

(** X11: an [issues] value that counts as false ([None], [False], [0],
    the empty string or list) is treated like a missing key: the task
    is the same and carries the line that says no issue was listed. *)
Theorem task_description_no_issues (solidity_code : string)
    (report : gmap string pyval) (v : pyval) :
  report !! "issues" = Some v ->
  truthy v = false ->
  create_refinement_task_description solidity_code report
  = create_refinement_task_description solidity_code (delete "issues" report)
  /\ forall text,
       create_refinement_task_description solidity_code report = Ok text ->
       PyText.occurs_in (PyText.of_str "  - No specific issues listed") text.
Proof.
  intros Hv Hf.
  assert (E : forall fallback,
             bullet_lines (dict_get report "issues" (PyList [])) fallback
             = Ok fallback).
  { intros fallback. unfold dict_get. rewrite Hv.
    now apply bullet_lines_falsy. }
  unfold create_refinement_task_description. rewrite E.
  split.
  - unfold dict_get. rewrite lookup_delete_eq.
    now rewrite !lookup_delete_ne by discriminate.
  - intros text Hok. cbn [rbind] in Hok.
    destruct (bullet_lines (dict_get report "recommendations" _) _) as [rt|];
      [|discriminate].
    destruct (py_upper _) as [up|]; [|discriminate].
    cbn [rbind] in Hok. injection Hok as <-.
    exists (PyText.of_str task_head ++ PyText.of_str solidity_code
            ++ PyText.of_str task_findings ++ up
            ++ PyText.of_str task_after_severity).
    eexists. rewrite <- !app_assoc. reflexivity.
Qed.

(** X12: the severity is shown in upper case, so two spellings of it
    that differ only in the case of ASCII letters give the same task. *)
Theorem task_description_case_insensitive (solidity_code : string)
    (report : gmap string pyval) (s s' t : string) :
  report !! "severity_level" = Some (PyStr s) ->
  PyStr.case_variant s t ->
  PyStr.case_variant s' t ->
  create_refinement_task_description solidity_code
    (<["severity_level" := PyStr s']> report)
  = create_refinement_task_description solidity_code report.
Proof.
  intros Hs Hcase Hcase'.
  unfold create_refinement_task_description, dict_get.
  rewrite lookup_insert_eq, Hs.
  rewrite !lookup_insert_ne by discriminate.
  cbn [py_upper].
  now rewrite (case_variant_upper s t Hcase), (case_variant_upper s' t Hcase').
Qed.

(** ** Finding the compiler *)

Section ProbeFacts.
Context `{Host}.

Lemma probe_outcome cmd shell w :
  probe cmd shell w
  = match subprocess_run cmd 5 shell w with
    | (Ok result, w1) => (Ok (returncode result =? 0), w1)
    | (Raise e, w1) =>
        if exn_is e [FileNotFoundError; TimeoutExpired]
        then (Ok false, w1) else (Raise e, w1)
    end.
Proof.
  unfold probe, try_except, bind.
  destruct (subprocess_run cmd 5 shell w) as [[result|e] w1]; [reflexivity|].
  now destruct (exn_is e _).
Qed.

Lemma exn_is_soft e :
  exn_is e [FileNotFoundError; TimeoutExpired] = true <->
  exn_cls e = FileNotFoundError \/ exn_cls e = TimeoutExpired.
Proof.
  unfold exn_is. rewrite bool_decide_eq_true, !elem_of_cons, elem_of_nil.
  tauto.
Qed.

(** X13: the constructor leaves one of three checkers: native [solc],
    [npx solcjs], or none; the flag is set exactly when there is a
    command, and a command is never the empty list. *)
Theorem init_checker_shape (w w' : world) (self : SolidityCompilationChecker) :
  __init__ w = (Ok self, w') ->
  self = {| compiler_cmd := Some ["solc"]; solc_available := true |}
  \/ self = {| compiler_cmd := Some ["npx"; "solcjs"]; solc_available := true |}
  \/ self = {| compiler_cmd := None; solc_available := false |}.
Proof.
  unfold __init__, _check_solc_available, bind. intros Hinit.
  destruct (probe ["solc"; "--version"] false w) as [[[|]|e] w1];
    [injection Hinit as <- _; now left| |discriminate].
  destruct (probe ["npx"; "solcjs"; "--version"] true w1) as [[[|]|e] w2];
    [injection Hinit as <- _; right; now left
    |injection Hinit as <- _; right; now right
    |discriminate].
Qed.

(** X14: native [solc] wins: when [solc --version] returns 0 the checker
    uses [solc], and [npx] is not even asked. *)
Theorem init_prefers_solc (w w1 : world) (result : completed_process) :
  subprocess_run ["solc"; "--version"] 5 false w = (Ok result, w1) ->
  returncode result = 0 ->
  __init__ w
  = (Ok {| compiler_cmd := Some ["solc"]; solc_available := true |}, w1).
Proof.
  intros Hrun Hrc. unfold __init__, _check_solc_available, bind.
  rewrite probe_outcome, Hrun, Hrc. reflexivity.
Qed.

(** X15: [npx solcjs] is the fallback: when [solc --version] is missing,
    times out or returns another code, and [npx solcjs --version]
    returns 0, the checker uses [npx solcjs]. *)
Theorem init_falls_back_to_npx (w w1 w2 : world)
    (result : completed_process) :
  (exists e, subprocess_run ["solc"; "--version"] 5 false w = (Raise e, w1)
             /\ (exn_cls e = FileNotFoundError \/ exn_cls e = TimeoutExpired))
  \/ (exists r, subprocess_run ["solc"; "--version"] 5 false w = (Ok r, w1)
                /\ returncode r <> 0) ->
  subprocess_run ["npx"; "solcjs"; "--version"] 5 true w1 = (Ok result, w2) ->
  returncode result = 0 ->
  __init__ w
  = (Ok {| compiler_cmd := Some ["npx"; "solcjs"]; solc_available := true |},
     w2).
Proof.
  intros Hsolc Hnpx Hrc. unfold __init__, _check_solc_available, bind.
  assert (E : probe ["solc"; "--version"] false w = (Ok false, w1)).
  { rewrite probe_outcome.
    destruct Hsolc as [(e & -> & Hcls)|(r & -> & Hr)].
    - now rewrite (proj2 (exn_is_soft e) Hcls).
    - destruct (returncode r =? 0) eqn:E; [lia|reflexivity]. }
  rewrite E, probe_outcome, Hnpx, Hrc. reflexivity.
Qed.

(** X16: only a missing binary and a timeout are taken as "no compiler
    here": any other exception of the first version command leaves the
    constructor, and with it [check_solidity_compiles], as raised. *)
Theorem init_propagates (w w1 : world) (e : py_exn) (solidity_code : string) :
  subprocess_run ["solc"; "--version"] 5 false w = (Raise e, w1) ->
  exn_cls e <> FileNotFoundError ->
  exn_cls e <> TimeoutExpired ->
  __init__ w = (Raise e, w1) /\
  check_solidity_compiles solidity_code w = (Raise e, w1).
Proof.
  intros Hrun Hf Ht.
  assert (E : probe ["solc"; "--version"] false w = (Raise e, w1)).
  { rewrite probe_outcome, Hrun.
    destruct (exn_is e _) eqn:Es; [|reflexivity].
    apply exn_is_soft in Es. tauto. }
  unfold check_solidity_compiles, __init__, _check_solc_available, bind.
  now rewrite E.
Qed.

End ProbeFacts.

(** ** Trimming *)

Lemma rstrip_head c s :
  PyStr.rstrip (String c s) = EmptyString
  \/ exists r, PyStr.rstrip (String c s) = String c r.
Proof.
  simpl. destruct (PyStr.rstrip s) as [|x r].
  - destruct (PyStr.isspace c); [now left|right; now eexists].
  - right. now eexists.
Qed.

Lemma rstrip_nonspace c s :
  PyStr.isspace c = false ->
  PyStr.rstrip (String c s) = String c (PyStr.rstrip s).
Proof.
  intros Hc. simpl. destruct (PyStr.rstrip s); [now rewrite Hc|reflexivity].
Qed.

Lemma rstrip_app a t :
  PyStr.rstrip t <> EmptyString ->
  PyStr.rstrip (a +:+ t) = a +:+ PyStr.rstrip t.
Proof.
  intros Ht. induction a as [|c a IH]; [reflexivity|].
  change (PyStr.rstrip (String c (a +:+ t)) = String c (a +:+ PyStr.rstrip t)).
  simpl. rewrite IH. destruct (a +:+ PyStr.rstrip t) eqn:E; [|reflexivity].
  exfalso. destruct a as [|y a]; [exact (Ht E)|discriminate E].
Qed.

Lemma rstrip_cons c s :
  PyStr.rstrip (String c s)
  = match PyStr.rstrip s with
    | EmptyString =>
        if PyStr.isspace c then EmptyString else String c EmptyString
    | r => String c r
    end.
Proof. reflexivity. Qed.

Lemma rstrip_idemp s : PyStr.rstrip (PyStr.rstrip s) = PyStr.rstrip s.
Proof.
  induction s as [|c s IH]; [reflexivity|].
  rewrite (rstrip_cons c s). destruct (PyStr.rstrip s) as [|x r] eqn:E.
  - destruct (PyStr.isspace c) eqn:Ec; [reflexivity|].
    rewrite rstrip_cons. cbn [PyStr.rstrip]. now rewrite Ec.
  - rewrite rstrip_cons, IH. reflexivity.
Qed.

Lemma lstrip_head s :
  PyStr.lstrip s = EmptyString
  \/ exists c r, PyStr.lstrip s = String c r /\ PyStr.isspace c = false.
Proof.
  induction s as [|c s IH]; [now left|].
  simpl. destruct (PyStr.isspace c) eqn:Ec; [exact IH|].
  right. now exists c, s.
Qed.

Lemma lstrip_nonspace c s :
  PyStr.isspace c = false -> PyStr.lstrip (String c s) = String c s.
Proof. intros Hc. simpl. now rewrite Hc. Qed.

(** Trimming what is trimmed changes nothing. *)
Lemma strip_idemp s : PyStr.strip (PyStr.strip s) = PyStr.strip s.
Proof.
  unfold PyStr.strip.
  destruct (lstrip_head s) as [->|(c & r & -> & Hc)]; [reflexivity|].
  destruct (rstrip_head c r) as [E|[r' E]]; rewrite E; [reflexivity|].
  rewrite (lstrip_nonspace c r' Hc), <- E. apply rstrip_idemp.
Qed.

Lemma lstrip_keeps a c m :
  PyStr.isspace c = false ->
  exists a', PyStr.lstrip (a +:+ String c m) = a' +:+ String c m.
Proof.
  intros Hc. induction a as [|x a IH].
  - exists "". simpl. now rewrite Hc.
  - change (String x a +:+ String c m) with (String x (a +:+ String c m)).
    simpl. destruct (PyStr.isspace x); [exact IH|].
    now exists (String x a).
Qed.

(** Trimming keeps an occurrence of the marker, which begins and ends
    with a character that is not a blank. *)
Lemma strip_keeps_marker s :
  PyStr.contains "Warning:" s = true ->
  PyStr.contains "Warning:" (PyStr.strip s) = true.
Proof.
  intros Hc. apply contains_infix in Hc as (a & b & ->).
  destruct (lstrip_keeps a "W" ("arning:" +:+ b) eq_refl) as [a' E].
  unfold PyStr.strip.
  change (a +:+ "Warning:" +:+ b) with (a +:+ String "W" ("arning:" +:+ b)).
  rewrite E.
  change (a' +:+ String "W" ("arning:" +:+ b))
    with (a' +:+ "Warning" +:+ String ":" b).
  rewrite <- append_assoc.
  rewrite rstrip_app; rewrite (rstrip_nonspace ":" b eq_refl);
    [|discriminate].
  apply contains_infix. exists a', (PyStr.rstrip b).
  now rewrite append_assoc.
Qed.

Lemma extract_warnings_marked stderr :
  Forall (fun warning =>
            PyStr.contains "Warning:" warning = true
            /\ PyStr.strip warning = warning)
    (extract_warnings stderr).
Proof.
  rewrite extract_warnings_lines.
  induction (PyStr.split PyStr.nl stderr) as [|line lines IH];
    simpl; [constructor|].
  destruct (PyStr.contains "Warning:" line) eqn:E; [|exact IH].
  simpl. constructor; [|exact IH].
  split; [now apply strip_keeps_marker|apply strip_idemp].
Qed.

(** ** What a check returns *)

Section ResultFacts.
Context `{Host}.

Lemma run_compiler_results self dir tmp_path w r w' :
  run_compiler self dir tmp_path w = (Ok r, w') ->
  (exists version stderr_text,
      r = {| compiles := Some true;
             error_message := None;
             warnings := extract_warnings stderr_text;
             compiler_version := Some version |})
  \/ (exists msg version,
         r = {| compiles := Some false;
                error_message := Some msg;
                warnings := [];
                compiler_version := Some version |}).
Proof.
  unfold run_compiler, bind, lift, ret. intros Hrun.
  destruct (index0 (compiler_cmd self)) as [c0|]; [|discriminate].
  destruct (if String.eqb c0 "npx" then _ else _) as [cc|]; [|discriminate].
  destruct (list_add _ _) as [vc|]; [|discriminate].
  destruct (subprocess_run cc 30 _ w) as [[res|] w1]; [|discriminate].
  destruct (subprocess_run vc 5 _ w1) as [[vres|] w2]; [|discriminate].
  destruct (returncode res =? 0); injection Hrun as <- _;
    [left|right]; eauto.
Qed.

Lemma try_block_results self dir tmp_path w r :
  fst (try_block self dir tmp_path w) = Ok r ->
  (exists version stderr_text,
      r = {| compiles := Some true;
             error_message := None;
             warnings := extract_warnings stderr_text;
             compiler_version := Some version |})
  \/ (exists msg version,
         r = {| compiles := Some false;
                error_message := Some msg;
                warnings := [];
                compiler_version := version |}).
Proof.
  unfold try_block, try_except.
  destruct (run_compiler self dir tmp_path w) as [[r0|e] w1] eqn:E.
  - cbn [fst]. intros [= <-].
    destruct (run_compiler_results _ _ _ _ _ _ E)
      as [Hok|(msg & version & ->)]; [now left|right; eauto].
  - unfold on_exception, ret.
    destruct (exn_is e [TimeoutExpired]); cbn [fst]; intros [= <-];
      right; eauto.
Qed.

Lemma check_compilation_blocked self solidity_code w content :
  solc_available self = true ->
  files w !! output_dir = Some content ->
  check_compilation self solidity_code w
  = (Raise (Exn FileExistsError
              "[Errno 17] File exists: 'compilation_output'"), w).
Proof.
  intros Hsolc Hdir. unfold check_compilation. rewrite Hsolc. simpl.
  unfold bind, mkdir_exist_ok. rewrite Hdir. reflexivity.
Qed.

Lemma check_compilation_results self solidity_code w r :
  fst (check_compilation self solidity_code w) = Ok r ->
  (solc_available self = false /\ r = unavailable_result)
  \/ (solc_available self = true /\
      exists version stderr_text,
        r = {| compiles := Some true;
               error_message := None;
               warnings := extract_warnings stderr_text;
               compiler_version := Some version |})
  \/ (solc_available self = true /\
      exists msg version,
        r = {| compiles := Some false;
               error_message := Some msg;
               warnings := [];
               compiler_version := version |}).
Proof.
  destruct (solc_available self) eqn:Hsolc.
  - destruct (files w !! output_dir) as [content|] eqn:Hdir.
    + rewrite (check_compilation_blocked _ _ _ content) by assumption.
      discriminate.
    + rewrite check_compilation_staged, compile_step_result by assumption.
      cbn [fst]. intros Hr. right.
      destruct (try_block_results _ _ _ _ _ Hr) as [Hok|Hfail];
        [left|right]; now split.
  - unfold check_compilation. rewrite Hsolc. cbn. intros [= <-]. now left.
Qed.

(** X18: the fields of a result hang together.  [compiles] is [None]
    exactly when no compiler is available; a success carries no error
    message and names a version; a failure always carries a message and
    never a warning. *)
Theorem check_compilation_result_shape (self : SolidityCompilationChecker)
    (solidity_code : string) (w : world) (r : CompilationResult) :
  fst (check_compilation self solidity_code w) = Ok r ->
  (compiles r = None <-> solc_available self = false) /\
  (compiles r = None ->
     warnings r = [] /\ compiler_version r = None /\
     exists msg, error_message r = Some msg) /\
  (compiles r = Some true ->
     error_message r = None /\ exists version, compiler_version r = Some version) /\
  (compiles r = Some false ->
     warnings r = [] /\ exists msg, error_message r = Some msg).
Proof.
  intros Hr.
  destruct (check_compilation_results _ _ _ _ Hr)
    as [[Hsolc ->]|[(Hsolc & version & text & ->)
                   |(Hsolc & msg & version & ->)]];
    cbn; rewrite Hsolc.
  - split; [tauto|]. split; [|split; discriminate].
    intros _. repeat split. now eexists.
  - split; [split; discriminate|]. split; [discriminate|].
    split; [|discriminate]. intros _. split; [reflexivity|now eexists].
  - split; [split; discriminate|]. split; [discriminate|].
    split; [discriminate|]. intros _. split; [reflexivity|now eexists].
Qed.

(** X19: every warning a check reports holds the marker ["Warning:"]
    and has no blank at either end. *)
Theorem check_compilation_warnings_marked (self : SolidityCompilationChecker)
    (solidity_code : string) (w : world) (r : CompilationResult) :
  fst (check_compilation self solidity_code w) = Ok r ->
  Forall (fun warning =>
            PyStr.contains "Warning:" warning = true
            /\ PyStr.strip warning = warning)
    (warnings r).
Proof.
  intros Hr.
  destruct (check_compilation_results _ _ _ _ Hr)
    as [[_ ->]|[(_ & version & text & ->)|(_ & msg & version & ->)]];
    cbn [warnings unavailable_result]; [constructor| |constructor].
  apply extract_warnings_marked.
Qed.

End ResultFacts.

(** ** The summary line *)

Lemma of_str_length s : length (PyText.of_str s) = String.length s.
Proof.
  unfold PyText.of_str. rewrite length_map.
  induction s as [|c s IH]; simpl; [reflexivity|now rewrite IH].
Qed.

Lemma string_length_append a b :
  String.length (a +:+ b) = (String.length a + String.length b)%nat.
Proof. induction a as [|c a IH]; simpl; [reflexivity|now rewrite IH]. Qed.

Lemma substring_prefix_length n s :
  (String.length (String.substring 0 n s) <= n)%nat.
Proof.
  revert s. induction n as [|n IH]; intros [|c s]; simpl; try lia.
  specialize (IH s). lia.
Qed.

Lemma substring_prefix_short n s :
  (String.length s <= n)%nat -> String.substring 0 n s = s.
Proof.
  revert s. induction n as [|n IH]; intros [|c s] Hlen; simpl in *;
    try reflexivity; try lia.
  rewrite IH; [reflexivity|lia].
Qed.

(** The text shown after the heading of a failure. *)
Lemma summarize_failure msg version :
  summarize {| compiles := Some false;
               error_message := Some msg;
               warnings := [];
               compiler_version := version |}
  = Ok (summary_failed
        ++ PyText.of_str
             (if (100 <? String.length msg)%nat
              then String.substring 0 100 msg +:+ "..."
              else msg)).
Proof.
  unfold summarize. cbn [compiles error_message len_opt rbind slice_to].
  now destruct (100 <? String.length msg)%nat.
Qed.

Section SummaryFacts.
Context `{Host}.

Lemma summarize_checked self solidity_code w r :
  fst (check_compilation self solidity_code w) = Ok r ->
  exists text, summarize r = Ok text.
Proof.
  intros Hr.
  destruct (check_compilation_results _ _ _ _ Hr)
    as [[_ ->]|[(_ & version & text & ->)|(_ & msg & version & ->)]].
  - now eexists.
  - now eexists.
  - rewrite summarize_failure. now eexists.
Qed.

(** X20: the summary adds no failure of its own: it raises exactly when
    the check raises, with the same exception.  In particular the
    length test on the error message never meets [None]. *)
Theorem get_compilation_summary_raises_iff
    (self : SolidityCompilationChecker) (solidity_code : string)
    (w w' : world) (e : py_exn) :
  get_compilation_summary self solidity_code w = (Raise e, w') <->
  check_compilation self solidity_code w = (Raise e, w').
Proof.
  unfold get_compilation_summary, bind, lift.
  destruct (check_compilation self solidity_code w) as [[r|e0] w1] eqn:E.
  - assert (Hr : fst (check_compilation self solidity_code w) = Ok r)
      by now rewrite E.
    destruct (summarize_checked _ _ _ _ Hr) as [text ->].
    split; discriminate.
  - split; intros [= -> ->]; reflexivity.
Qed.

(** X17: a regular file at [compilation_output] is not tolerated: with a
    compiler available the check raises the [FileExistsError] of [mkdir]
    at once, leaving the host as it was (no temporary file, no command
    run), and the summary raises the same exception. *)
Theorem check_compilation_output_dir_occupied
    (self : SolidityCompilationChecker) (solidity_code : string)
    (w : world) (content : string) :
  solc_available self = true ->
  files w !! "compilation_output" = Some content ->
  check_compilation self solidity_code w
  = (Raise (Exn FileExistsError
              "[Errno 17] File exists: 'compilation_output'"), w) /\
  get_compilation_summary self solidity_code w
  = (Raise (Exn FileExistsError
              "[Errno 17] File exists: 'compilation_output'"), w).
Proof.
  intros Hsolc Hfile.
  pose proof (check_compilation_blocked self solidity_code w content
                Hsolc Hfile) as E.
  split; [exact E|].
  unfold get_compilation_summary, bind. now rewrite E.
Qed.

(** X21: the summary of a failed compilation stays short: after the
    heading come at most 103 characters, the first 100 of the message
    and three dots, and a message of up to 100 characters is shown in
    full. *)
Theorem get_compilation_summary_failure_bounded
    (self : SolidityCompilationChecker) (solidity_code : string)
    (w : world) (r : CompilationResult) (msg : string) (text : PyText.text) :
  fst (check_compilation self solidity_code w) = Ok r ->
  compiles r = Some false ->
  error_message r = Some msg ->
  fst (get_compilation_summary self solidity_code w) = Ok text ->
  (exists shown,
      text = summary_failed ++ PyText.of_str shown /\
      (String.length shown <= 103)%nat /\
      String.substring 0 100 shown = String.substring 0 100 msg) /\
  (length text <= 125)%nat /\
  ((String.length msg <= 100)%nat ->
   text = summary_failed ++ PyText.of_str msg).
Proof.
  intros Hr Hfail Hmsg Hsum.
  unfold get_compilation_summary, bind, lift in Hsum.
  destruct (check_compilation self solidity_code w) as [[r0|e0] w1] eqn:E;
    [|discriminate].
  cbn [fst] in Hr, Hsum. injection Hr as ->.
  assert (Hr : fst (check_compilation self solidity_code w) = Ok r)
    by now rewrite E.
  destruct (check_compilation_results _ _ _ _ Hr)
    as [[_ ->]|[(_ & version & t & ->)|(_ & msg' & version & ->)]];
    try discriminate.
  cbn in Hmsg. injection Hmsg as ->.
  rewrite summarize_failure in Hsum.
  assert (Hhead : length summary_failed = 22%nat) by reflexivity.
  remember summary_failed as heading eqn:Hheading.
  remember (PyText.of_str
              (if (100 <? String.length msg)%nat
               then String.substring 0 100 msg +:+ "..." else msg))
    as body eqn:Hbody.
  assert (Htext : text = heading ++ body) by congruence.
  subst text body. clear Hsum.
  destruct (100 <? String.length msg)%nat eqn:Hlong.
  - apply Nat.ltb_lt in Hlong.
    pose proof (substring_prefix_length 100 msg) as Hcut.
    assert (Hcut' : String.length (String.substring 0 100 msg) = 100%nat).
    { clear -Hlong. revert Hlong. generalize 100%nat as n. intros n.
      revert msg. induction n as [|n IH]; intros [|c s] Hlen; simpl in *;
        try reflexivity; try lia.
      rewrite IH; [reflexivity|lia]. }
    split; [|split].
    + exists (String.substring 0 100 msg +:+ "..."). split; [reflexivity|].
      split.
      * rewrite string_length_append. simpl String.length. lia.
      * clear -Hcut'. revert Hcut'. generalize (String.substring 0 100 msg).
        generalize 100%nat as n.
        induction n as [|n IH]; intros [|c s] Hlen; simpl in *;
          try reflexivity; try discriminate.
        rewrite IH; [reflexivity|lia].
    + rewrite length_app, of_str_length, string_length_append, Hhead.
      simpl String.length. lia.
    + lia.
  - apply Nat.ltb_ge in Hlong. split; [|split].
    + exists msg. split; [reflexivity|]. split; [lia|reflexivity].
    + rewrite length_app, of_str_length, Hhead. lia.
    + reflexivity.
Qed.

(** X22: the first symbol of the summary tells the outcome: the warning
    sign when no compiler was available, the check mark when the code
    compiled, the cross mark when it did not. *)
Theorem get_compilation_summary_symbol
    (self : SolidityCompilationChecker) (solidity_code : string)
    (w : world) (r : CompilationResult) (text : PyText.text) :
  fst (check_compilation self solidity_code w) = Ok r ->
  fst (get_compilation_summary self solidity_code w) = Ok text ->
  (compiles r = None <-> head text = Some 9888%N) /\
  (compiles r = Some true <-> head text = Some 9989%N) /\
  (compiles r = Some false <-> head text = Some 10060%N).
Proof.
  intros Hr Hsum.
  unfold get_compilation_summary, bind, lift in Hsum.
  destruct (check_compilation self solidity_code w) as [[r0|e0] w1] eqn:E;
    [|discriminate].
  cbn [fst] in Hr, Hsum. injection Hr as ->.
  assert (Hr : fst (check_compilation self solidity_code w) = Ok r)
    by now rewrite E.
  destruct (check_compilation_results _ _ _ _ Hr)
    as [[_ ->]|[(_ & version & t & ->)|(_ & msg & version & ->)]].
  - injection Hsum as <-. cbn. repeat split; discriminate.
  - unfold summarize in Hsum. cbn [compiles] in Hsum.
    injection Hsum as <-. cbn. repeat split; discriminate.
  - rewrite summarize_failure in Hsum. injection Hsum as <-.
    cbn. repeat split; discriminate.
Qed.

End SummaryFacts.

(** ** The launcher before the servers *)

Section LauncherFacts.
Context `{Installer}.


(** X23: when every package imports, the loop prints one ready line per
    package, in order, and ends normally; the installer is not run. *)
Theorem check_dependencies_all_imported (packages : list (string * string)) :
  (forall import_name pip_name,
      In (import_name, pip_name) packages ->
      import_module import_name = Imported) ->
  check_dependencies packages
  = (List.map (fun package => PackageReady (snd package)) packages, None).
Proof.
  induction packages as [|[i p] rest IH]; intros Hall; [reflexivity|].
  simpl. rewrite (Hall i p) by now left.
  rewrite IH; [reflexivity|].
  intros i' p' Hin. apply (Hall i' p'). now right.
Qed.


(** X25: a failed installation ends the script at once: the packages
    after it are neither imported nor installed, and the demo files are
    not looked at. *)
Theorem launch_stops_at_failed_install (before after : list (string * string))
    (import_name pip_name : string) (workspace_root : string) (w : world) :
  required_packages = before ++ (import_name, pip_name) :: after ->
  snd (check_dependencies before) = None ->
  import_module import_name = RaisesImportError ->
  pip_install pip_name <> 0 ->
  launch_checks workspace_root w
  = (fst (check_dependencies before) ++ [PackageInstalling pip_name],
     Traceback (CalledProcessError pip_name (pip_install pip_name))).
Proof.
  intros Hsplit Hbefore Himport Hpip. unfold launch_checks. rewrite Hsplit.
  assert (E : check_dependencies (before ++ (import_name, pip_name) :: after)
              = (fst (check_dependencies before) ++ [PackageInstalling pip_name],
                 Some (CalledProcessError pip_name (pip_install pip_name)))).
  { clear Hsplit. induction before as [|[i p] rest IH]; simpl in *.
    - rewrite Himport. destruct (pip_install pip_name =? 0) eqn:E; [lia|].
      reflexivity.
    - destruct (import_module i).
      + destruct (check_dependencies rest) as [printed stop]. simpl in *.
        now rewrite IH.
      + destruct (pip_install p =? 0); [|discriminate].
        destruct (check_dependencies rest) as [printed stop]. simpl in *.
        now rewrite IH.
      + discriminate. }
  now rewrite E.
Qed.

End LauncherFacts.

(** ** Instances *)


Lemma task_description_embeds_code_witness :
  exists text rest,
    create_refinement_task_description Sample.source Case.findings = Ok text /\
    text = PyText.of_str task_head ++ PyText.of_str Sample.source ++ rest.
Proof.
  destruct (create_refinement_task_description Sample.source Case.findings)
    as [text|e] eqn:E; [|vm_compute in E; discriminate E].
  destruct (task_description_embeds_code Sample.source Case.findings text E)
    as [rest [Htext _]].
  exists text, rest. split; [reflexivity|exact Htext].
Defined.

Lemma task_description_no_issues_witness :
  Case.unlisted !! "issues" = Some PyNone /\
  truthy PyNone = false /\
  create_refinement_task_description Sample.source Case.unlisted
  = create_refinement_task_description Sample.source
      (delete "issues" Case.unlisted).
Proof.
  assert (H0 : Case.unlisted !! "issues" = Some PyNone) by reflexivity.
  assert (H1 : truthy PyNone = false) by reflexivity.
  split; [exact H0|]. split; [exact H1|].
  exact (proj1 (task_description_no_issues Sample.source Case.unlisted
                  PyNone H0 H1)).
Defined.

Lemma task_description_case_insensitive_witness :
  Case.findings !! "severity_level" = Some (PyStr "High") /\
  create_refinement_task_description Sample.source
    (<["severity_level" := PyStr "HIGH"]> Case.findings)
  = create_refinement_task_description Sample.source Case.findings.
Proof.
  assert (H0 : Case.findings !! "severity_level" = Some (PyStr "High"))
    by reflexivity.
  assert (H1 : PyStr.case_variant "High" "high").
  { apply (PyStr.cv_upper "h"). repeat apply PyStr.cv_keep.
    apply PyStr.cv_nil. }
  assert (H2 : PyStr.case_variant "HIGH" "high").
  { apply (PyStr.cv_upper "h"), (PyStr.cv_upper "i"),
      (PyStr.cv_upper "g"), (PyStr.cv_upper "h"), PyStr.cv_nil. }
  split; [exact H0|].
  exact (task_description_case_insensitive Sample.source Case.findings
           "High" "HIGH" "high" H0 H1 H2).
Defined.

Lemma init_checker_shape_witness :
  __init__ (H := Sample.bare_host) Sample.empty_world
  = (Ok Sample.absent, Sample.empty_world) /\
  (Sample.absent = {| compiler_cmd := Some ["solc"]; solc_available := true |}
   \/ Sample.absent
      = {| compiler_cmd := Some ["npx"; "solcjs"]; solc_available := true |}
   \/ Sample.absent = {| compiler_cmd := None; solc_available := false |}).
Proof.
  assert (H0 : __init__ (H := Sample.bare_host) Sample.empty_world
               = (Ok Sample.absent, Sample.empty_world)) by reflexivity.
  split; [exact H0|].
  exact (init_checker_shape (H := Sample.bare_host) _ _ _ H0).
Defined.

Lemma init_prefers_solc_witness :
  __init__ (H := Sample.solc_host (Ok Sample.warned_run)) Sample.empty_world
  = (Ok Sample.native, Sample.empty_world).
Proof.
  exact (init_prefers_solc (H := Sample.solc_host (Ok Sample.warned_run))
           Sample.empty_world Sample.empty_world
           (CompletedProcess 0 "solc, the solidity compiler 0.8.20 " "")
           eq_refl eq_refl).
Defined.

Lemma init_falls_back_to_npx_witness :
  __init__ (H := Case.npx_host) Sample.empty_world
  = (Ok {| compiler_cmd := Some ["npx"; "solcjs"]; solc_available := true |},
     Sample.empty_world).
Proof.
  apply (init_falls_back_to_npx (H := Case.npx_host)
           Sample.empty_world Sample.empty_world Sample.empty_world
           (CompletedProcess 0 "0.8.20+commit.a1b79de6" "")).
  - left. eexists. split; [reflexivity|]. left. reflexivity.
  - reflexivity.
  - reflexivity.
Defined.

Lemma init_propagates_witness :
  check_solidity_compiles (H := Case.denied_host) Sample.source
    Sample.empty_world
  = (Raise (Exn OtherException "[Errno 13] Permission denied: 'solc'"),
     Sample.empty_world).
Proof.
  refine (proj2 (init_propagates (H := Case.denied_host)
                   Sample.empty_world Sample.empty_world _ Sample.source
                   eq_refl _ _)); discriminate.
Defined.

Lemma check_compilation_result_shape_witness :
  fst (check_compilation (H := Sample.solc_host (Ok Sample.failed_run))
         Sample.native Sample.source Sample.empty_world)
  = Ok {| compiles := Some false;
          error_message := Some (stderr Sample.failed_run);
          warnings := [];
          compiler_version := Some "solc, the solidity compiler 0.8.20" |}
  /\ (Some false = None <-> solc_available Sample.native = false).
Proof.
  assert (H0 : fst (check_compilation
                      (H := Sample.solc_host (Ok Sample.failed_run))
                      Sample.native Sample.source Sample.empty_world)
               = Ok {| compiles := Some false;
                       error_message := Some (stderr Sample.failed_run);
                       warnings := [];
                       compiler_version :=
                         Some "solc, the solidity compiler 0.8.20" |})
    by reflexivity.
  split; [exact H0|].
  exact (proj1 (check_compilation_result_shape
                  (H := Sample.solc_host (Ok Sample.failed_run))
                  _ _ _ _ H0)).
Defined.

Lemma check_compilation_warnings_marked_witness :
  Forall (fun warning =>
            PyStr.contains "Warning:" warning = true
            /\ PyStr.strip warning = warning)
    ["Warning: unused variable"].
Proof.
  refine (check_compilation_warnings_marked
            (H := Sample.solc_host (Ok Sample.warned_run))
            Sample.native Sample.source Sample.empty_world
            {| compiles := Some true;
               error_message := None;
               warnings := ["Warning: unused variable"];
               compiler_version := Some "solc, the solidity compiler 0.8.20" |}
            _).
  reflexivity.
Defined.

Lemma get_compilation_summary_failure_bounded_witness :
  exists text,
    fst (get_compilation_summary (H := Sample.solc_host (Ok Case.verbose_run))
           Sample.native Sample.source Sample.empty_world) = Ok text
    /\ (length text <= 125)%nat.
Proof.
  destruct (get_compilation_summary
              (H := Sample.solc_host (Ok Case.verbose_run))
              Sample.native Sample.source Sample.empty_world)
    as [[text|e] w1] eqn:E; [|vm_compute in E; discriminate E].
  exists text. split; [reflexivity|].
  refine (proj1 (proj2 (get_compilation_summary_failure_bounded
                          (H := Sample.solc_host (Ok Case.verbose_run))
                          Sample.native Sample.source Sample.empty_world
                          {| compiles := Some false;
                             error_message := Some (stderr Case.verbose_run);
                             warnings := [];
                             compiler_version :=
                               Some "solc, the solidity compiler 0.8.20" |}
                          (stderr Case.verbose_run) text
                          eq_refl eq_refl eq_refl _))).
  now rewrite E.
Defined.

Lemma get_compilation_summary_symbol_witness :
  exists text,
    fst (get_compilation_summary (H := Sample.solc_host (Raise Sample.timeout))
           Sample.native Sample.source Sample.empty_world) = Ok text
    /\ head text = Some 10060%N.
Proof.
  destruct (get_compilation_summary
              (H := Sample.solc_host (Raise Sample.timeout))
              Sample.native Sample.source Sample.empty_world)
    as [[text|e] w1] eqn:E; [|vm_compute in E; discriminate E].
  exists text. split; [reflexivity|].
  refine (proj1 (proj2 (proj2
            (get_compilation_summary_symbol
               (H := Sample.solc_host (Raise Sample.timeout))
               Sample.native Sample.source Sample.empty_world
               {| compiles := Some false;
                  error_message :=
                    Some "Compilation timed out after 30 seconds";
                  warnings := [];
                  compiler_version := None |}
               text eq_refl _))) eq_refl).
  now rewrite E.
Defined.

Lemma check_dependencies_all_imported_witness :
  check_dependencies (H := Case.all_installed) required_packages
  = ([PackageReady "flask"; PackageReady "flask-cors"; PackageReady "fastmcp";
      PackageReady "agentics"; PackageReady "PyPDF2"; PackageReady "pydantic"],
     None).
Proof.
  apply (check_dependencies_all_imported (H := Case.all_installed)
           required_packages).
  intros import_name pip_name _. reflexivity.
Defined.

Lemma launch_stops_at_failed_install_witness :
  launch_checks (H := Case.offline) "/srv/app" Sample.site
  = ([PackageReady "flask"; PackageInstalling "flask-cors"],
     Traceback (CalledProcessError "flask-cors" 1)).
Proof.
  apply (launch_stops_at_failed_install (H := Case.offline)
           [("flask", "flask")]
           [("fastmcp", "fastmcp"); ("agentics", "agentics");
            ("PyPDF2", "PyPDF2"); ("pydantic", "pydantic")]
           "flask_cors" "flask-cors" "/srv/app" Sample.site);
    [reflexivity|reflexivity|reflexivity|discriminate].
Defined.

(** X26: a list of issues is laid out one per line: the block of the
    task that lists them, split at the line breaks, gives back the
    issues in order, each behind ["  - "]. *)
Theorem task_description_lists_issues (solidity_code : string)
    (report : gmap string pyval) (issues : list string)
    (text : PyText.text) :
  report !! "issues" = Some (PyList (List.map PyStr issues)) ->
  issues <> [] ->
  Forall PyStr.nl_free issues ->
  create_refinement_task_description solidity_code report = Ok text ->
  exists block,
    PyText.occurs_in (PyText.of_str block) text /\
    PyStr.split PyStr.nl block
    = List.map (fun issue => "  - " +:+ issue) issues.
Proof.
  intros Hissues Hne Hfree Hok.
  exists (PyStr.join PyStr.NL
            (List.map (fun issue => "  - " +:+ issue) issues)).
  split.
  - unfold create_refinement_task_description in Hok.
    assert (E : bullet_lines (dict_get report "issues" (PyList []))
                  "  - No specific issues listed"
                = Ok (PyStr.join PyStr.NL
                        (List.map (fun issue => "  - " +:+ issue) issues))).
    { unfold dict_get. rewrite Hissues. unfold bullet_lines.
      destruct issues as [|i rest]; [congruence|].
      cbn [truthy List.map py_iter rbind]. f_equal. f_equal.
      change (PyStr i :: List.map PyStr rest) with (List.map PyStr (i :: rest)).
      rewrite List.map_map. reflexivity. }
    rewrite E in Hok. cbn [rbind] in Hok.
    destruct (bullet_lines (dict_get report "recommendations" _) _) as [rt|];
      [|discriminate].
    destruct (py_upper _) as [up|]; [|discriminate].
    cbn [rbind] in Hok. injection Hok as <-.
    exists (PyText.of_str task_head ++ PyText.of_str solidity_code
            ++ PyText.of_str task_findings ++ up
            ++ PyText.of_str task_after_severity).
    eexists. rewrite <- !app_assoc. reflexivity.
  - apply split_join.
    + destruct issues; [congruence|discriminate].
    + clear -Hfree. induction Hfree as [|i rest Hi _ IH]; simpl;
        constructor; [|exact IH].
      intros Hin. simpl in Hin.
      destruct Hin as [E|[E|[E|[E|Hin]]]]; try discriminate E.
      exact (Hi Hin).
Qed.

Lemma task_description_lists_issues_witness :
  exists text block,
    create_refinement_task_description Sample.source Case.findings = Ok text
    /\ PyText.occurs_in (PyText.of_str block) text
    /\ PyStr.split PyStr.nl block
       = ["  - reentrancy in withdraw"; "  - missing access control"].
Proof.
  destruct (create_refinement_task_description Sample.source Case.findings)
    as [text|e] eqn:E; [|vm_compute in E; discriminate E].
  destruct (task_description_lists_issues Sample.source Case.findings
              ["reentrancy in withdraw"; "missing access control"] text)
    as (block & Hocc & Hlines).
  - reflexivity.
  - discriminate.
  - repeat constructor; vm_compute; intuition discriminate.
  - exact E.
  - exists text, block. repeat split; assumption.
Defined.


Lemma check_compilation_output_dir_occupied_witness :
  solc_available Sample.native = true /\
  files Case.blocked_world !! "compilation_output" = Some "notes" /\
  check_compilation (H := Sample.solc_host (Ok Sample.warned_run))
    Sample.native Sample.source Case.blocked_world
  = (Raise (Exn FileExistsError
              "[Errno 17] File exists: 'compilation_output'"),
     Case.blocked_world).
Proof.
  split; [reflexivity|]. split; [reflexivity|].
  exact (proj1 (check_compilation_output_dir_occupied
                  (H := Sample.solc_host (Ok Sample.warned_run))
                  Sample.native Sample.source Case.blocked_world "notes"
                  eq_refl eq_refl)).
Defined.
